(** * BatchNormalization lowering of onnx2c: [src/nodes/batchnormalization.h]

    A shallow embedding of the [toC::BatchNormalization] node: attribute
    parsing, resolution (operand binding, identity elision, variance folding,
    output allocation) and the emission of the C loop nest. Tensors live in a
    store and are named by address, because the node holds [const Tensor *]
    handles into the graph and [calculateSqrtVarOffline] writes through one of
    them. *)

From Stdlib Require Import ZArith String Ascii.
From Stdlib Require Import Floats.SpecFloat.
From stdpp Require Import base list strings pretty.

Local Open Scope Z_scope.

(** ** Outcomes of running a member function

    [ERROR(msg)] prints a diagnostic and abandons the compilation of the
    node; the message is kept. A step whose behaviour C++ leaves undefined
    (indexing a [std::vector] or a buffer past its end, dereferencing a
    pointer that names no tensor) is a separate outcome, so that no theorem
    can silently rely on it. *)

Inductive undefined_behaviour : Type :=
| OutOfBounds
| InvalidPointer.

Inductive outcome (A : Type) : Type :=
| Ok (a : A)
| ERROR (msg : string)
| Undefined (u : undefined_behaviour).

Arguments Ok {A} a.
Arguments ERROR {A} msg.
Arguments Undefined {A} u.

Definition bind {A B : Type} (c : outcome A) (k : A -> outcome B) : outcome B :=
  match c with
  | Ok a => k a
  | ERROR msg => ERROR msg
  | Undefined u => Undefined u
  end.

Notation "x <~ c ;; k" := (bind c (fun x => k))
  (at level 100, c at next level, right associativity).

Definition is_Ok {A : Type} (c : outcome A) : bool :=
  match c with Ok _ => true | _ => false end.

(** ** Single-precision floats

    C's [float] is IEEE 754 binary32: precision 24, maximal exponent 128,
    round to nearest even. [SpecFloat] gives its operations exactly, on
    canonical values. [sqrt] applied to a [float] and stored back into a
    [float] yields the correctly rounded binary32 square root whether the
    [float] or the [double] overload is selected (53 >= 2 * 24 + 2). *)

Definition float : Type := spec_float.

Definition prec : Z := 24.
Definition emax : Z := 128.

Definition float_add (x y : float) : float := SFadd prec emax x y.
Definition float_sqrt (x : float) : float := SFsqrt prec emax x.
(** [x != y] on floats: true for unordered operands, false for [-0.0] and [0.0]. *)
Definition float_neq (x y : float) : bool := negb (SFeqb x y).

(** [1.0f], [0.0f] and the binary32 values nearest to [1e-5] and [0.9]. *)
Definition float_1_0 : float := S754_finite false 8388608 (-23).
Definition float_0_0 : float := S754_zero false.
Definition float_1em5 : float := S754_finite false 10995116 (-40).
Definition float_0_9 : float := S754_finite false 15099494 (-24).

(** ** The ONNX enumerations the node inspects *)

(** [onnx::TensorProto_DataType]. *)
Inductive DataType : Type :=
| UNDEFINED | FLOAT | UINT8 | INT8 | UINT16 | INT16 | INT32 | INT64
| STRING | BOOL | FLOAT16 | DOUBLE | UINT32 | UINT64
| COMPLEX64 | COMPLEX128 | BFLOAT16.

Global Instance DataType_eq_dec : EqDecision DataType.
Proof. solve_decision. Defined.

(** [onnx::AttributeProto_AttributeType]. *)
Inductive AttributeType : Type :=
| AttributeType_UNDEFINED | AttributeType_FLOAT | AttributeType_INT
| AttributeType_STRING | AttributeType_TENSOR | AttributeType_GRAPH
| AttributeType_FLOATS | AttributeType_INTS | AttributeType_STRINGS
| AttributeType_TENSORS | AttributeType_GRAPHS
| AttributeType_SPARSE_TENSOR | AttributeType_SPARSE_TENSORS
| AttributeType_TYPE_PROTO | AttributeType_TYPE_PROTOS.

Global Instance AttributeType_eq_dec : EqDecision AttributeType.
Proof. solve_decision. Defined.

(** [onnx::AttributeProto], as far as the node reads it. *)
Module AttributeProto.
Record t : Type := mk {
  name : string;
  type : AttributeType;
  has_f : bool;
  f : float;
  has_i : bool;
  i : Z
}.
End AttributeProto.

(** [onnx::NodeProto]: only [attribute()] is read. *)
Module NodeProto.
Record t : Type := mk { attribute : list AttributeProto.t }.
End NodeProto.

(** ** Tensors and the store

    [data_dim] is a [std::vector<int>]. [data_buffer] is the storage behind
    the [void *], the way this node reaches it, which is through a
    [float *] cast whatever the element type: slot [j] is the [float] that
    the four bytes at offset [4 * j] denote, and storing a [float] into a
    slot replaces those four bytes. The slots of a FLOAT tensor are its
    elements. An element of another type does not fill one slot: a double
    fills two, so that a tensor of [n] doubles has [2 * n] slots, and the
    node has no way to read or write such an element as a value. *)
Module Tensor.
Record t : Type := mk {
  data_dim : list Z;
  data_type : DataType;
  isConst : bool;
  data_buffer : list float
}.

Definition with_data_buffer (b : list float) (x : t) : t :=
  mk (data_dim x) (data_type x) (isConst x) b.
End Tensor.

(** Addresses of tensors; a store maps the addresses below its length. *)
Abbreviation ptr := nat.
Abbreviation store := (list Tensor.t).

Definition deref (st : store) (p : ptr) : outcome Tensor.t :=
  match st !! p with
  | Some x => Ok x
  | None => Undefined InvalidPointer
  end.

(** [v[k]] on a vector or a buffer. *)
Definition index {A : Type} (v : list A) (k : nat) : outcome A :=
  match v !! k with
  | Some x => Ok x
  | None => Undefined OutOfBounds
  end.

(** Modelled from the spec: [Tensor::data_num_elem] is declared with the
    Tensor class, outside this file; the total element count is the product
    of the shape. *)
Definition data_num_elem (x : Tensor.t) : Z :=
  foldr Z.mul 1 (Tensor.data_dim x).

(** [(float * )t->data_buffer]: the cast looks at no element type. *)
Definition as_float_array (x : Tensor.t) : list float := Tensor.data_buffer x.

(** Modelled from the spec: [Node::typeConstraint_plainFloatingPoints] is a
    member of the base class, outside this file; it accepts the plain
    floating-point element types and rejects integer, boolean, string and
    quantized ones. *)
Definition typeConstraint_plainFloatingPoints (x : Tensor.t) : bool :=
  match Tensor.data_type x with
  | FLOAT16 | FLOAT | DOUBLE => true
  | _ => false
  end.

(** ** The node

    The data members of [toC::BatchNormalization], with the members of the
    base class it uses: [inputs], filled by the graph builder before
    [resolve] runs, and the parameter lists written by [register_input] and
    [register_output]. A null handle is [None]. *)
Module BatchNormalization.
Record t : Type := mk {
  inputs : list ptr;
  input_params : list (ptr * string);
  output_params : list (ptr * string);
  sqrt_var_offline : bool;
  epsilon : float;
  momentum : float;
  input : option ptr;
  scale : option ptr;
  bias : option ptr;
  mean : option ptr;
  var : option ptr;
  output : option ptr
}.

Definition set_input_params v n :=
  mk (inputs n) v (output_params n) (sqrt_var_offline n) (epsilon n)
     (momentum n) (input n) (scale n) (bias n) (mean n) (var n) (output n).
Definition set_output_params v n :=
  mk (inputs n) (input_params n) v (sqrt_var_offline n) (epsilon n)
     (momentum n) (input n) (scale n) (bias n) (mean n) (var n) (output n).
Definition set_sqrt_var_offline v n :=
  mk (inputs n) (input_params n) (output_params n) v (epsilon n)
     (momentum n) (input n) (scale n) (bias n) (mean n) (var n) (output n).
Definition set_epsilon v n :=
  mk (inputs n) (input_params n) (output_params n) (sqrt_var_offline n) v
     (momentum n) (input n) (scale n) (bias n) (mean n) (var n) (output n).
Definition set_momentum v n :=
  mk (inputs n) (input_params n) (output_params n) (sqrt_var_offline n)
     (epsilon n) v (input n) (scale n) (bias n) (mean n) (var n) (output n).
Definition set_input v n :=
  mk (inputs n) (input_params n) (output_params n) (sqrt_var_offline n)
     (epsilon n) (momentum n) v (scale n) (bias n) (mean n) (var n) (output n).
Definition set_scale v n :=
  mk (inputs n) (input_params n) (output_params n) (sqrt_var_offline n)
     (epsilon n) (momentum n) (input n) v (bias n) (mean n) (var n) (output n).
Definition set_bias v n :=
  mk (inputs n) (input_params n) (output_params n) (sqrt_var_offline n)
     (epsilon n) (momentum n) (input n) (scale n) v (mean n) (var n) (output n).
Definition set_mean v n :=
  mk (inputs n) (input_params n) (output_params n) (sqrt_var_offline n)
     (epsilon n) (momentum n) (input n) (scale n) (bias n) v (var n) (output n).
Definition set_var v n :=
  mk (inputs n) (input_params n) (output_params n) (sqrt_var_offline n)
     (epsilon n) (momentum n) (input n) (scale n) (bias n) (mean n) v (output n).
Definition set_output v n :=
  mk (inputs n) (input_params n) (output_params n) (sqrt_var_offline n)
     (epsilon n) (momentum n) (input n) (scale n) (bias n) (mean n) (var n) v.

(** The constructor [BatchNormalization()]; the graph builder then hands
    the node its operands. *)
Definition constructed (operands : list ptr) : t :=
  mk operands [] [] false float_1em5 float_0_9 None None None None None None.
End BatchNormalization.

Abbreviation node := BatchNormalization.t.

(** Modelled from the spec: [Node::register_input] and
    [Node::register_output] belong to the base class, outside this file;
    they record the tensor under the given name as consumed, respectively
    produced, by this node. *)
Definition register_input (p : ptr) (name : string) (n : node) : node :=
  BatchNormalization.set_input_params
    (BatchNormalization.input_params n ++ [(p, name)]) n.

Definition register_output (p : ptr) (name : string) (n : node) : node :=
  BatchNormalization.set_output_params
    (BatchNormalization.output_params n ++ [(p, name)]) n.

(** Following a member handle: [input->...], [var->...]. *)
Definition follow (st : store) (h : option ptr) : outcome Tensor.t :=
  match h with
  | Some p => deref st p
  | None => Undefined InvalidPointer
  end.

(** ** Attribute parsing *)

Definition parseAttribute_epsilon (a : AttributeProto.t) (n : node) : outcome node :=
  if decide (AttributeProto.type a ≠ AttributeType_FLOAT)
  then ERROR ("Bad attribute " +:+ AttributeProto.name a)
  else if decide (AttributeProto.has_f a = false)
  then ERROR ("Bad attribute " +:+ AttributeProto.name a)
  else Ok (BatchNormalization.set_epsilon (AttributeProto.f a) n).

Definition parseAttribute_momentum (a : AttributeProto.t) (n : node) : outcome node :=
  if decide (AttributeProto.type a ≠ AttributeType_FLOAT)
  then ERROR ("Bad attribute " +:+ AttributeProto.name a)
  else if decide (AttributeProto.has_f a = false)
  then ERROR ("Bad attribute " +:+ AttributeProto.name a)
  else Ok (BatchNormalization.set_momentum (AttributeProto.f a) n).

Section Lowering.

(** What this file takes from the rest of the code generator:
    - [parse_attribute_int], the shared decoder of an integer attribute,
      with the [int] it returns or the way it fails;
    - [data_type_str], the C name of a tensor's element type;
    - the text [operator<<] writes for a [float];
    - the text the indentation macros [INDT_1] and [INDT_2] write. *)
Variable parse_attribute_int : AttributeProto.t -> outcome Z.
Variable data_type_str : Tensor.t -> string.
Variable show_float : float -> string.
Variables INDT_1 INDT_2 : string.

(** The body of the loop of [parseAttributes], for one record. *)
Definition parseAttributes_body (a : AttributeProto.t) (n : node) : outcome node :=
  if decide (AttributeProto.name a = "epsilon") then parseAttribute_epsilon a n
  else if decide (AttributeProto.name a = "momentum") then parseAttribute_momentum a n
  else if decide (AttributeProto.name a = "spatial") then
    spatial <~ parse_attribute_int a;;
    if decide (spatial ≠ 1)
    then ERROR "non-default value for 'spatial' attribute not implemented"
    else Ok n
  else ERROR ("Unknown attribute " +:+ AttributeProto.name a).

Fixpoint parseAttributes_loop (l : list AttributeProto.t) (n : node) : outcome node :=
  match l with
  | [] => Ok n
  | a :: l' => n' <~ parseAttributes_body a n;; parseAttributes_loop l' n'
  end.

Definition parseAttributes (proto : NodeProto.t) (n : node) : outcome node :=
  parseAttributes_loop (NodeProto.attribute proto) n.

(** ** Emission *)

Definition tab : string := String "009" "".
Definition endl : string := String "010" "".

(** Lines 85-88: the comment that opens the block. *)
Definition print_comment (n : node) : string :=
  tab +:+ "/* BatchNormalization" +:+ endl
  +:+ tab +:+ " * epsilon = " +:+ show_float (BatchNormalization.epsilon n) +:+ endl
  +:+ tab +:+ " * momentum = " +:+ show_float (BatchNormalization.momentum n) +:+ endl
  +:+ tab +:+ " */" +:+ endl +:+ endl.

(** Lines 90-91. *)
Definition print_epsilon (n : node) : string :=
  if decide (BatchNormalization.sqrt_var_offline n = false)
  then INDT_1 +:+ "float epsilon = " +:+ show_float (BatchNormalization.epsilon n)
       +:+ ";" +:+ endl
  else "".

(** Lines 97-99: [for( unsigned i = 2; i<input->data_dim.size(); i++)], with
    [k] iterations left before [i] reaches the size. *)
Fixpoint print_idxs (k i : nat) (idxs : string) : string :=
  match k with
  | O => idxs
  | S k' => print_idxs k' (S i) (idxs +:+ "[i" +:+ pretty i +:+ "]")
  end.

(** Lines 103-108. *)
Fixpoint print_data_loops (data_dim : list Z) (k i : nat) : outcome string :=
  match k with
  | O => Ok ""
  | S k' =>
    let idx := "i" +:+ pretty i in
    d <~ index data_dim i;;
    rest <~ print_data_loops data_dim k' (S i);;
    Ok (tab +:+ "for( uint32_t " +:+ idx +:+ "=0; "
        +:+ idx +:+ "<" +:+ pretty d +:+ "; "
        +:+ idx +:+ "++ ) {" +:+ endl +:+ rest)
  end.

(** Lines 110-114. *)
Definition print_tmp_X (type idxs : string) (n : node) : string :=
  INDT_2 +:+ type +:+ " tmp_X = ( X" +:+ idxs +:+ " - mean[c] ) / "
  +:+ (if BatchNormalization.sqrt_var_offline n
       then "( var[c] );" +:+ endl
       else "( sqrt( var[c] + epsilon));" +:+ endl).

(** Lines 116-121. *)
Definition print_output (idxs : string) (n : node) : string :=
  INDT_2 +:+ "output" +:+ idxs +:+ " = tmp_X "
  +:+ match BatchNormalization.scale n with Some _ => "* scale[c]" | None => "" end
  +:+ match BatchNormalization.bias n with Some _ => " + bias[c]" | None => "" end
  +:+ ";" +:+ endl.

(** Lines 123-124. *)
Fixpoint print_data_loops_end (k : nat) : string :=
  match k with
  | O => ""
  | S k' => tab +:+ "}" +:+ endl +:+ print_data_loops_end k'
  end.

(** [print(dst)]: the text written to [dst]. *)
Definition print (n : node) (st : store) : outcome string :=
  X <~ follow st (BatchNormalization.input n);;
  batch_size <~ index (Tensor.data_dim X) 0;;
  num_chan <~ index (Tensor.data_dim X) 1;;
  let type := data_type_str X in
  let size := length (Tensor.data_dim X) in
  let idxs := print_idxs (size - 2) 2 "[b][c]" in
  data_loops <~ print_data_loops (Tensor.data_dim X) (size - 2) 2;;
  Ok (print_comment n
      +:+ print_epsilon n
      +:+ tab +:+ "for( int32_t b=0; b<" +:+ pretty batch_size +:+ "; b++ ) {" +:+ endl
      +:+ tab +:+ "for( int32_t c=0; c<" +:+ pretty num_chan +:+ "; c++ ) {" +:+ endl
      +:+ data_loops
      +:+ print_tmp_X type idxs n
      +:+ print_output idxs n
      +:+ print_data_loops_end (size - 2)
      +:+ tab +:+ "}" +:+ endl
      +:+ tab +:+ "}" +:+ endl).

(** ** Constant folding *)

(** Lines 140-144: [k] iterations left, [i] the index reached. *)
Fixpoint isSplatted_loop (b : list float) (value : float) (k i : nat) : outcome bool :=
  match k with
  | O => Ok true
  | S k' =>
    x <~ index b i;;
    if float_neq x value then Ok false
    else isSplatted_loop b value k' (S i)
  end.

Definition isSplatted (st : store) (t : option ptr) (value : float) : outcome bool :=
  x <~ follow st t;;
  if decide (Tensor.data_type x ≠ FLOAT) then ERROR "Unimplemented"
  else if decide (Tensor.isConst x = false) then Ok false
  else
    let b := as_float_array x in
    isSplatted_loop b value (Z.to_nat (data_num_elem x)) 0.

(** Lines 153-154: [v[i] = sqrt(v[i] + epsilon)]. *)
Fixpoint calculateSqrtVarOffline_loop
    (eps : float) (k i : nat) (v : list float) : outcome (list float) :=
  match k with
  | O => Ok v
  | S k' =>
    x <~ index v i;;
    calculateSqrtVarOffline_loop eps k' (S i) (<[i := float_sqrt (float_add x eps)]> v)
  end.

(** The write goes through the handle [var], into the store. Nothing here
    looks at the element type of the tensor or at its constness. *)
Definition calculateSqrtVarOffline (n : node) (st : store) : outcome store :=
  match BatchNormalization.var n with
  | None => Undefined InvalidPointer
  | Some p =>
    x <~ deref st p;;
    let v := as_float_array x in
    v' <~ calculateSqrtVarOffline_loop (BatchNormalization.epsilon n)
            (Z.to_nat (data_num_elem x)) 0 v;;
    Ok (<[p := Tensor.with_data_buffer v' x]> st)
  end.

(** ** Resolution *)

(** [if( typeConstraint_plainFloatingPoints(t) == false) ERROR(...)]. *)
Definition check_plainFloatingPoints (st : store) (t : option ptr) : outcome unit :=
  x <~ follow st t;;
  if decide (typeConstraint_plainFloatingPoints x = false)
  then ERROR "Incorrect input for node"
  else Ok tt.

(** Lines 196-200: [new Tensor] takes the first free address; the fresh
    tensor is not constant and owns no data, and only its shape and element
    type are assigned here. *)
Definition allocate_output (n : node) (st : store) : outcome (node * store) :=
  X <~ follow st (BatchNormalization.input n);;
  let rv := Tensor.mk (Tensor.data_dim X) (Tensor.data_type X) false [] in
  let p := length st in
  Ok (register_output p "output" (BatchNormalization.set_output (Some p) n),
      st ++ [rv]).

Definition resolve (n : node) (st : store) : outcome (node * store) :=
  let inputs := BatchNormalization.inputs n in
  if decide (length inputs ≠ 5%nat)
  then ERROR "wrong number of inputs to BatchNormalization"
  else
    p0 <~ index inputs 0;;
    let n := register_input p0 "X" (BatchNormalization.set_input (Some p0) n) in
    p1 <~ index inputs 1;;
    let n := register_input p1 "scale" (BatchNormalization.set_scale (Some p1) n) in
    p2 <~ index inputs 2;;
    let n := register_input p2 "bias" (BatchNormalization.set_bias (Some p2) n) in
    p3 <~ index inputs 3;;
    let n := register_input p3 "mean" (BatchNormalization.set_mean (Some p3) n) in
    p4 <~ index inputs 4;;
    let n := register_input p4 "var" (BatchNormalization.set_var (Some p4) n) in
    _ <~ check_plainFloatingPoints st (BatchNormalization.input n);;
    _ <~ check_plainFloatingPoints st (BatchNormalization.scale n);;
    _ <~ check_plainFloatingPoints st (BatchNormalization.bias n);;
    _ <~ check_plainFloatingPoints st (BatchNormalization.mean n);;
    _ <~ check_plainFloatingPoints st (BatchNormalization.var n);;
    s1 <~ isSplatted st (BatchNormalization.scale n) float_1_0;;
    let n := if s1 then BatchNormalization.set_scale None n else n in
    s0 <~ isSplatted st (BatchNormalization.bias n) float_0_0;;
    let n := if s0 then BatchNormalization.set_bias None n else n in
    v <~ follow st (BatchNormalization.var n);;
    folded <~
      (if Tensor.isConst v
       then
         st' <~ calculateSqrtVarOffline n st;;
         Ok (BatchNormalization.set_sqrt_var_offline true n, st')
       else Ok (n, st));;
    allocate_output folded.1 folded.2.

(** The node once lines 162-171 have bound and registered the five
    operands. *)
Definition bound (n : node) (p0 p1 p2 p3 p4 : ptr) : node :=
  BatchNormalization.mk (BatchNormalization.inputs n)
    (((((BatchNormalization.input_params n ++ [(p0, "X")]) ++ [(p1, "scale")])
        ++ [(p2, "bias")]) ++ [(p3, "mean")]) ++ [(p4, "var")])
    (BatchNormalization.output_params n)
    (BatchNormalization.sqrt_var_offline n)
    (BatchNormalization.epsilon n) (BatchNormalization.momentum n)
    (Some p0) (Some p1) (Some p2) (Some p3) (Some p4)
    (BatchNormalization.output n).

(** The invariant of the Tensor class this node relies on: a constant
    tensor of floats stores exactly [data_num_elem] elements. *)
Definition well_formed (x : Tensor.t) : Prop :=
  Tensor.isConst x = true -> Tensor.data_type x = FLOAT ->
  length (Tensor.data_buffer x) = Z.to_nat (data_num_elem x).

(** ** The loop nest the specification describes

    Section 4.4 of the specification, in its own words: a loop over the batch
    dimension, nested with a loop over the channel dimension, then one loop
    per spatial dimension, each bound equal to that axis's static extent;
    every element is addressed by the indices of all dimensions. *)

Definition text (lines : list string) : string := foldr String.append "" lines.

Definition spec_loop_counter (axis : nat) : string :=
  match axis with
  | O => "b"
  | S O => "c"
  | _ => "i" +:+ pretty axis
  end.

Definition spec_loop_type (axis : nat) : string :=
  match axis with
  | O | S O => "int32_t"
  | _ => "uint32_t"
  end.

Definition spec_loop (axis : nat) (extent : Z) : string :=
  tab +:+ "for( " +:+ spec_loop_type axis +:+ " " +:+ spec_loop_counter axis +:+ "=0; "
  +:+ spec_loop_counter axis +:+ "<" +:+ pretty extent +:+ "; "
  +:+ spec_loop_counter axis +:+ "++ ) {" +:+ endl.

Definition spec_loop_nest (shape : list Z) : list string := imap spec_loop shape.

Definition spec_loop_end : string := tab +:+ "}" +:+ endl.

Definition spec_element_index (shape : list Z) : string :=
  text (imap (fun axis _ => "[" +:+ spec_loop_counter axis +:+ "]") shape).

(** ** The end-to-end scenarios of the specification

    Input of shape [2,3,4,4]; scale all ones, bias all zeros, mean
    [0.1, 0.2, 0.3] and variance [1, 4, 9], all constant; epsilon 1e-5. In
    the second scenario the variance is a tensor computed at run time. *)

Definition scenario_X : Tensor.t := Tensor.mk [2; 3; 4; 4] FLOAT false [].
Definition scenario_scale : Tensor.t :=
  Tensor.mk [3] FLOAT true [float_1_0; float_1_0; float_1_0].
Definition scenario_bias : Tensor.t :=
  Tensor.mk [3] FLOAT true [float_0_0; float_0_0; float_0_0].
Definition scenario_mean : Tensor.t :=
  Tensor.mk [3] FLOAT true
    [S754_finite false 13421773 (-27); S754_finite false 13421773 (-26);
     S754_finite false 10066330 (-25)].
Definition scenario_var : Tensor.t :=
  Tensor.mk [3] FLOAT true
    [float_1_0; S754_finite false 8388608 (-21); S754_finite false 9437184 (-20)].
Definition scenario_var_runtime : Tensor.t := Tensor.mk [3] FLOAT false [].

Definition scenario_store : store :=
  [scenario_X; scenario_scale; scenario_bias; scenario_mean; scenario_var].
Definition scenario_store_runtime : store :=
  [scenario_X; scenario_scale; scenario_bias; scenario_mean; scenario_var_runtime].
Definition scenario_node : node :=
  BatchNormalization.constructed [0; 1; 2; 3; 4]%nat.

Definition scenario_resolved : node * store :=
  Eval vm_compute in
    match resolve scenario_node scenario_store with
    | Ok r => r
    | _ => (scenario_node, scenario_store)
    end.
Definition scenario_resolved_runtime : node * store :=
  Eval vm_compute in
    match resolve scenario_node scenario_store_runtime with
    | Ok r => r
    | _ => (scenario_node, scenario_store_runtime)
    end.

(** Stand-ins for the parts of the code generator this file does not
    define, used only to run the scenarios: the C names of the floating
    types, one rendering of a float, the shared integer decoder, and
    (below) one and two tabs of indentation. *)
Definition sample_data_type_str (x : Tensor.t) : string :=
  match Tensor.data_type x with
  | FLOAT => "float"
  | DOUBLE => "double"
  | _ => "unknown"
  end.
Definition sample_show_float (x : float) : string :=
  if SFeqb x float_1em5 then "1e-05" else if SFeqb x float_0_9 then "0.9" else "?".
Definition sample_parse_attribute_int (a : AttributeProto.t) : outcome Z :=
  if decide (AttributeProto.type a <> AttributeType_INT) then ERROR "Wrong attribute type"
  else if decide (AttributeProto.has_i a = false) then ERROR "Bad attribute"
  else Ok (AttributeProto.i a).

(** Operands and attribute records for the error paths. *)
Definition sample_double : Tensor.t := Tensor.mk [3] DOUBLE false [].
Definition sample_int32 : Tensor.t := Tensor.mk [3] INT32 true [].
Definition sample_rank1 : Tensor.t := Tensor.mk [5] FLOAT false [].

Definition sample_epsilon : AttributeProto.t :=
  AttributeProto.mk "epsilon" AttributeType_FLOAT true float_1em5 false 0.
Definition sample_epsilon_int : AttributeProto.t :=
  AttributeProto.mk "epsilon" AttributeType_INT false float_0_0 true 1.
Definition sample_spatial_0 : AttributeProto.t :=
  AttributeProto.mk "spatial" AttributeType_INT false float_0_0 true 0.
Definition sample_training_mode : AttributeProto.t :=
  AttributeProto.mk "training_mode" AttributeType_INT false float_0_0 true 0.

(** ** Closed forms used to state what the loops compute *)

(** The [f] of the last record of [l] named [name], or [default]: what a
    loop that overwrites a member at every matching record leaves in it. *)
Definition last_f (name : string) (l : list AttributeProto.t) (default : float) : float :=
  foldl (fun acc a => if decide (AttributeProto.name a = name)
                      then AttributeProto.f a else acc)
        default l.

(** A buffer whose first [k] elements went through [sqrt(v + eps)]. *)
Definition folded (eps : float) (k : nat) (b : list float) : list float :=
  ((fun x => float_sqrt (float_add x eps)) <$> take k b) ++ drop k b.

(** Operands and records for the edge cases: a constant tensor with no
    element, a constant buffer of negative zeros, a constant tensor whose
    buffer is shorter than its shape says, and further attribute records. *)
Definition sample_empty : Tensor.t := Tensor.mk [3; 0] FLOAT true [].
Definition sample_negative_zeros : Tensor.t :=
  Tensor.mk [2] FLOAT true [S754_zero true; S754_zero true].
Definition sample_short : Tensor.t := Tensor.mk [3] FLOAT true [float_1_0].
Definition sample_momentum : AttributeProto.t :=
  AttributeProto.mk "momentum" AttributeType_FLOAT true float_1_0 false 0.
Definition sample_epsilon_1 : AttributeProto.t :=
  AttributeProto.mk "epsilon" AttributeType_FLOAT true float_1_0 false 0.
Definition sample_spatial_1 : AttributeProto.t :=
  AttributeProto.mk "spatial" AttributeType_INT false float_0_0 true 1.
Definition sample_spatial_float : AttributeProto.t :=
  AttributeProto.mk "spatial" AttributeType_FLOAT true float_1_0 false 0.

(** The scenario's node resolved a second time on the store its first
    resolution left, and the scenario's node after an epsilon record of
    value 1 was parsed, with its resolution. *)
Definition scenario_resolved_twice : node * store :=
  Eval vm_compute in
    match resolve scenario_node scenario_resolved.2 with
    | Ok r => r
    | _ => scenario_resolved
    end.
Definition scenario_parsed : node :=
  BatchNormalization.set_epsilon float_1_0 scenario_node.
Definition scenario_parsed_resolved : node * store :=
  Eval vm_compute in
    match resolve scenario_parsed scenario_store with
    | Ok r => r
    | _ => (scenario_parsed, scenario_store)
    end.

(** A constant variance of doubles: 1.0, 4.0 and 9.0 as the six
    float-sized slots their storage is made of, the low word of each double
    first. The low words are all zero bits, which a [float] reads as 0.0;
    the high words 0x3FF00000, 0x40100000 and 0x40220000 read as 1.875,
    2.25 and 2.53125. *)
Definition sample_variance_of_doubles : Tensor.t :=
  Tensor.mk [3] DOUBLE true
    [float_0_0; S754_finite false 15728640 (-23);
     float_0_0; S754_finite false 9437184 (-22);
     float_0_0; S754_finite false 10616832 (-22)].
Definition scenario_store_doubles : store :=
  [scenario_X; scenario_scale; scenario_bias; scenario_mean; sample_variance_of_doubles].
Definition scenario_resolved_doubles : node * store :=
  Eval vm_compute in
    match resolve scenario_node scenario_store_doubles with
    | Ok r => r
    | _ => (scenario_node, scenario_store_doubles)
    end.

(** * Properties *)

(** ** Sequencing *)

Lemma bind_Ok {A B : Type} (c : outcome A) (k : A -> outcome B) (b : B) :
  bind c k = Ok b -> exists a, c = Ok a /\ k a = Ok b.
Proof. destruct c as [a | msg | u]; simpl; [eauto | discriminate..]. Qed.

Lemma bind_ERROR {A B : Type} (c : outcome A) (k : A -> outcome B) (msg : string) :
  bind c k = ERROR msg -> c = ERROR msg \/ exists a, c = Ok a /\ k a = ERROR msg.
Proof. destruct c as [a | msg' | u]; simpl; [eauto | intros [= ->]; auto | discriminate]. Qed.

Lemma index_Ok {A : Type} (v : list A) (k : nat) (x : A) :
  index v k = Ok x <-> v !! k = Some x.
Proof. unfold index. destruct (v !! k); split; congruence. Qed.

Lemma index_lt {A : Type} (v : list A) (k : nat) :
  (k < length v)%nat -> exists x, v !! k = Some x /\ index v k = Ok x.
Proof.
  intros Hk. destruct (lookup_lt_is_Some_2 v k Hk) as [x Hx].
  exists x. split; [done | by apply index_Ok].
Qed.

Lemma index_ge {A : Type} (v : list A) (k : nat) :
  (length v <= k)%nat -> index v k = Undefined OutOfBounds.
Proof. intros Hk. unfold index. by rewrite lookup_ge_None_2. Qed.

Lemma deref_Ok (st : store) (p : ptr) (x : Tensor.t) :
  deref st p = Ok x <-> st !! p = Some x.
Proof. unfold deref. destruct (st !! p); split; congruence. Qed.

(** ** The two loops over a buffer *)

Lemma isSplatted_loop_true (b : list float) (value : float) (k : nat) :
  forall i : nat,
    isSplatted_loop b value k i = Ok true <->
    (forall j : nat, (i <= j < i + k)%nat ->
       exists x, b !! j = Some x /\ float_neq x value = false).
Proof.
  induction k as [| k IH]; intros i; simpl.
  - split; [intros _ j Hj; lia | done].
  - split.
    + intros H. apply bind_Ok in H as (x & Hx & H). apply index_Ok in Hx.
      destruct (float_neq x value) eqn:Hneq; [discriminate |].
      pose proof (proj1 (IH (S i)) H) as Hrest. intros j Hj.
      destruct (decide (j = i)) as [-> | Hne]; [eauto |].
      apply Hrest. lia.
    + intros H. destruct (H i) as (x & Hx & Hneq); [lia |].
      apply index_Ok in Hx. rewrite Hx. simpl. rewrite Hneq.
      apply (proj2 (IH (S i))). intros j Hj. apply H. lia.
Qed.

Lemma isSplatted_loop_in_range (b : list float) (value : float) (k : nat) :
  forall i : nat,
    (i + k <= length b)%nat ->
    isSplatted_loop b value k i
    = Ok (forallb (fun x => negb (float_neq x value)) (take k (drop i b))).
Proof.
  induction k as [| k IH]; intros i Hlen; simpl; [done |].
  destruct (index_lt b i) as (x & Hx & ->); [lia |]. simpl.
  rewrite (drop_S _ _ _ Hx). simpl.
  destruct (float_neq x value); simpl; [done |].
  rewrite IH; [done | lia].
Qed.

Lemma calculateSqrtVarOffline_loop_Ok (eps : float) (k : nat) :
  forall (i : nat) (v v' : list float),
    calculateSqrtVarOffline_loop eps k i v = Ok v' ->
    length v' = length v /\
    (forall j : nat, (i <= j < i + k)%nat ->
       exists x, v !! j = Some x /\
                 v' !! j = Some (float_sqrt (float_add x eps))) /\
    (forall j : nat, ~ (i <= j < i + k)%nat -> v' !! j = v !! j).
Proof.
  induction k as [| k IH]; intros i v v' H; simpl in H.
  - injection H as <-. split; [done |]. split; [intros j Hj; lia | done].
  - apply bind_Ok in H as (x & Hx & H). apply index_Ok in Hx.
    apply IH in H as (Hlen & Hin & Hout).
    rewrite length_insert in Hlen. split; [done |]. split.
    + intros j Hj. destruct (decide (j = i)) as [-> | Hne].
      * exists x. split; [done |].
        rewrite Hout by lia. apply list_lookup_insert_eq.
        by eapply lookup_lt_Some.
      * destruct (Hin j) as (y & Hy & Hj'); [lia |].
        rewrite list_lookup_insert_ne in Hy by done. eauto.
    + intros j Hj. rewrite Hout by lia.
      apply list_lookup_insert_ne. lia.
Qed.

Lemma calculateSqrtVarOffline_loop_in_range (eps : float) (k : nat) :
  forall (i : nat) (v : list float),
    (i + k <= length v)%nat ->
    is_Ok (calculateSqrtVarOffline_loop eps k i v) = true.
Proof.
  induction k as [| k IH]; intros i v Hlen; simpl; [done |].
  destruct (index_lt v i) as (x & Hx & ->); [lia |]. simpl.
  apply IH. rewrite length_insert. lia.
Qed.

(** ** Resolution, step by step *)

Lemma check_plainFloatingPoints_Ok (st : store) (p : ptr) (u : unit) :
  check_plainFloatingPoints st (Some p) = Ok u ->
  exists x, st !! p = Some x /\ typeConstraint_plainFloatingPoints x = true.
Proof.
  unfold check_plainFloatingPoints, follow. intros H.
  apply bind_Ok in H as (x & Hx & H). apply deref_Ok in Hx.
  destruct (decide _) as [Hc | Hc]; [discriminate |].
  exists x. split; [done |]. by destruct (typeConstraint_plainFloatingPoints x).
Qed.

Lemma calculateSqrtVarOffline_Ok (n : node) (st st' : store) (p : ptr) :
  BatchNormalization.var n = Some p ->
  calculateSqrtVarOffline n st = Ok st' ->
  exists x v',
    st !! p = Some x /\
    calculateSqrtVarOffline_loop (BatchNormalization.epsilon n)
      (Z.to_nat (data_num_elem x)) 0 (Tensor.data_buffer x) = Ok v' /\
    st' = <[p := Tensor.with_data_buffer v' x]> st.
Proof.
  unfold calculateSqrtVarOffline, as_float_array. intros -> H.
  apply bind_Ok in H as (x & Hx & H). apply deref_Ok in Hx.
  apply bind_Ok in H as (v' & Hv' & H). injection H as <-.
  by exists x, v'.
Qed.

Lemma resolve_Ok_inv (n n' : node) (st st' : store) :
  resolve n st = Ok (n', st') ->
  exists p0 p1 p2 p3 p4 t0 t1 t2 t3 t4 s1 s0 stf,
    BatchNormalization.inputs n = [p0; p1; p2; p3; p4] /\
    (st !! p0 = Some t0 /\ st !! p1 = Some t1 /\ st !! p2 = Some t2 /\
     st !! p3 = Some t3 /\ st !! p4 = Some t4) /\
    (typeConstraint_plainFloatingPoints t0 = true /\
     typeConstraint_plainFloatingPoints t1 = true /\
     typeConstraint_plainFloatingPoints t2 = true /\
     typeConstraint_plainFloatingPoints t3 = true /\
     typeConstraint_plainFloatingPoints t4 = true) /\
    isSplatted st (Some p1) float_1_0 = Ok s1 /\
    isSplatted st (Some p2) float_0_0 = Ok s0 /\
    (if Tensor.isConst t4
     then exists v',
         calculateSqrtVarOffline_loop (BatchNormalization.epsilon n)
           (Z.to_nat (data_num_elem t4)) 0 (Tensor.data_buffer t4) = Ok v' /\
         stf = <[p4 := Tensor.with_data_buffer v' t4]> st
     else stf = st) /\
    st' = stf ++ [Tensor.mk (Tensor.data_dim t0) (Tensor.data_type t0) false []] /\
    n' = BatchNormalization.mk (BatchNormalization.inputs n)
           (BatchNormalization.input_params (bound n p0 p1 p2 p3 p4))
           (BatchNormalization.output_params n ++ [(length st, "output")])
           (if Tensor.isConst t4 then true else BatchNormalization.sqrt_var_offline n)
           (BatchNormalization.epsilon n) (BatchNormalization.momentum n)
           (Some p0) (if s1 then None else Some p1) (if s0 then None else Some p2)
           (Some p3) (Some p4) (Some (length st)).
Proof.
  unfold resolve. intros H.
  destruct (decide _) as [Hlen | Hlen]; [discriminate |].
  apply dec_stable in Hlen.
  destruct (BatchNormalization.inputs n) as [| p0 [| p1 [| p2 [| p3 [| p4 [| ? ?]]]]]] eqn:Hin;
    try discriminate Hlen.
  clear Hlen. cbn [index lookup list_lookup bind] in H.
  change (register_input p4 _ _) with (bound n p0 p1 p2 p3 p4) in H.
  cbn [bound BatchNormalization.input BatchNormalization.scale BatchNormalization.bias
       BatchNormalization.mean BatchNormalization.var] in H.
  apply bind_Ok in H as (? & (t0 & H0 & Hc0)%check_plainFloatingPoints_Ok & H).
  apply bind_Ok in H as (? & (t1 & H1 & Hc1)%check_plainFloatingPoints_Ok & H).
  apply bind_Ok in H as (? & (t2 & H2 & Hc2)%check_plainFloatingPoints_Ok & H).
  apply bind_Ok in H as (? & (t3 & H3 & Hc3)%check_plainFloatingPoints_Ok & H).
  apply bind_Ok in H as (? & (t4 & H4 & Hc4)%check_plainFloatingPoints_Ok & H).
  apply bind_Ok in H as (s1 & Hs1 & H).
  assert (Hbias : forall m, BatchNormalization.bias
            (if s1 then BatchNormalization.set_scale None m else m)
            = BatchNormalization.bias m) by (intros m; by destruct s1).
  rewrite Hbias in H. cbn [bound BatchNormalization.bias] in H.
  apply bind_Ok in H as (s0 & Hs0 & H).
  set (ne := if s0 then _ else _) in H.
  assert (Hne : ne = BatchNormalization.mk (BatchNormalization.inputs n)
           (BatchNormalization.input_params (bound n p0 p1 p2 p3 p4))
           (BatchNormalization.output_params n)
           (BatchNormalization.sqrt_var_offline n)
           (BatchNormalization.epsilon n) (BatchNormalization.momentum n)
           (Some p0) (if s1 then None else Some p1) (if s0 then None else Some p2)
           (Some p3) (Some p4) (BatchNormalization.output n)).
  { subst ne. by destruct s0, s1. }
  clearbody ne. subst ne.
  cbn [BatchNormalization.var follow] in H.
  apply bind_Ok in H as (v & Hv%deref_Ok & H).
  assert (v = t4) as -> by congruence.
  apply bind_Ok in H as ([nf stf] & Hf & H). cbn [fst snd] in H.
  exists p0, p1, p2, p3, p4, t0, t1, t2, t3, t4, s1, s0, stf.
  split; [done |]. split; [done |]. split; [done |].
  split; [done |]. split; [done |].
  assert (Hstf : (if Tensor.isConst t4
     then exists v',
         calculateSqrtVarOffline_loop (BatchNormalization.epsilon n)
           (Z.to_nat (data_num_elem t4)) 0 (Tensor.data_buffer t4) = Ok v' /\
         stf = <[p4 := Tensor.with_data_buffer v' t4]> st
     else stf = st) /\
     exists X, stf !! p0 = Some X /\ Tensor.data_dim X = Tensor.data_dim t0 /\
               Tensor.data_type X = Tensor.data_type t0 /\ length stf = length st /\
       nf = BatchNormalization.mk (BatchNormalization.inputs n)
           (BatchNormalization.input_params (bound n p0 p1 p2 p3 p4))
           (BatchNormalization.output_params n)
           (if Tensor.isConst t4 then true else BatchNormalization.sqrt_var_offline n)
           (BatchNormalization.epsilon n) (BatchNormalization.momentum n)
           (Some p0) (if s1 then None else Some p1) (if s0 then None else Some p2)
           (Some p3) (Some p4) (BatchNormalization.output n)).
  { destruct (Tensor.isConst t4).
    - apply bind_Ok in Hf as (stf' & Hcalc & [= <- <-]).
      eapply calculateSqrtVarOffline_Ok in Hcalc as (y & v' & Hy & Hloop & ->);
        [| reflexivity].
      assert (y = t4) as -> by congruence. cbn [BatchNormalization.epsilon] in Hloop.
      split; [by exists v' |].
      destruct (decide (p0 = p4)) as [-> | Hne].
      + assert (t0 = t4) as -> by congruence.
        exists (Tensor.with_data_buffer v' t4).
        rewrite list_lookup_insert_eq by (by eapply lookup_lt_Some).
        by rewrite length_insert.
      + exists t0. rewrite list_lookup_insert_ne by done.
        by rewrite length_insert.
    - injection Hf as <- <-. split; [done |]. by exists t0. }
  destruct Hstf as (Hstf & X & HX & Hdim & Hty & Hlen & ->).
  split; [done |].
  unfold allocate_output in H. cbn [BatchNormalization.input follow] in H.
  apply bind_Ok in H as (X' & HX'%deref_Ok & [= <- <-]).
  assert (X' = X) as -> by congruence.
  rewrite Hdim, Hty, Hlen, Hin. done.
Qed.

Lemma check_plainFloatingPoints_pass (st : store) (p : ptr) (x : Tensor.t) :
  st !! p = Some x -> typeConstraint_plainFloatingPoints x = true ->
  check_plainFloatingPoints st (Some p) = Ok tt.
Proof.
  intros Hx Hc. unfold check_plainFloatingPoints, follow, deref.
  rewrite Hx. simpl. rewrite Hc. done.
Qed.

Lemma check_plainFloatingPoints_fail (st : store) (p : ptr) (x : Tensor.t) :
  st !! p = Some x -> typeConstraint_plainFloatingPoints x = false ->
  check_plainFloatingPoints st (Some p) = ERROR "Incorrect input for node".
Proof.
  intros Hx Hc. unfold check_plainFloatingPoints, follow, deref.
  rewrite Hx. simpl. rewrite Hc. done.
Qed.

Lemma check_plainFloatingPoints_ERROR (st : store) (p : ptr) (msg : string) :
  check_plainFloatingPoints st (Some p) = ERROR msg ->
  msg = "Incorrect input for node" /\
  exists x, st !! p = Some x /\ typeConstraint_plainFloatingPoints x = false.
Proof.
  unfold check_plainFloatingPoints, follow, deref.
  destruct (st !! p) as [x |]; simpl; [| discriminate].
  destruct (decide _) as [Hc | Hc]; [| discriminate].
  intros [= <-]. eauto.
Qed.

Lemma isSplatted_loop_not_ERROR (b : list float) (value : float) (k : nat) :
  forall (i : nat) (msg : string), isSplatted_loop b value k i <> ERROR msg.
Proof.
  induction k as [| k IH]; intros i msg; simpl; [done |].
  unfold index. destruct (b !! i) as [x |]; simpl; [| done].
  destruct (float_neq x value); [done | apply IH].
Qed.

Lemma isSplatted_ERROR (st : store) (p : ptr) (value : float) (msg : string) :
  isSplatted st (Some p) value = ERROR msg ->
  msg = "Unimplemented" /\
  exists x, st !! p = Some x /\ Tensor.data_type x <> FLOAT.
Proof.
  unfold isSplatted, follow, deref, as_float_array.
  destruct (st !! p) as [x |]; simpl; [| discriminate].
  destruct (decide (Tensor.data_type x <> FLOAT)) as [Hty | Hty].
  - intros [= <-]. eauto.
  - destruct (decide (Tensor.isConst x = false)); [discriminate |].
    intros H. by apply isSplatted_loop_not_ERROR in H.
Qed.

Lemma isSplatted_not_FLOAT (st : store) (p : ptr) (x : Tensor.t) (value : float) :
  st !! p = Some x -> Tensor.data_type x <> FLOAT ->
  isSplatted st (Some p) value = ERROR "Unimplemented".
Proof.
  intros Hx Hty. unfold isSplatted, follow, deref. rewrite Hx. simpl.
  by destruct (decide _).
Qed.

Lemma isSplatted_not_const (st : store) (p : ptr) (x : Tensor.t) (value : float) :
  st !! p = Some x -> Tensor.data_type x = FLOAT -> Tensor.isConst x = false ->
  isSplatted st (Some p) value = Ok false.
Proof.
  intros Hx Hty Hc. unfold isSplatted, follow, deref. rewrite Hx. simpl.
  destruct (decide _) as [? | _]; [done |]. by destruct (decide _).
Qed.

Lemma isSplatted_const (st : store) (p : ptr) (x : Tensor.t) (value : float) :
  st !! p = Some x -> Tensor.data_type x = FLOAT -> Tensor.isConst x = true ->
  isSplatted st (Some p) value
  = isSplatted_loop (Tensor.data_buffer x) value (Z.to_nat (data_num_elem x)) 0.
Proof.
  intros Hx Hty Hc. unfold isSplatted, follow, deref, as_float_array. rewrite Hx. simpl.
  destruct (decide _) as [? | _]; [done |].
  by destruct (decide _) as [? | _]; [congruence |].
Qed.

Lemma calculateSqrtVarOffline_loop_not_ERROR (eps : float) (k : nat) :
  forall (i : nat) (v : list float) (msg : string),
    calculateSqrtVarOffline_loop eps k i v <> ERROR msg.
Proof.
  induction k as [| k IH]; intros i v msg; simpl; [done |].
  unfold index. destruct (v !! i) as [x |]; simpl; [apply IH | done].
Qed.

Lemma calculateSqrtVarOffline_not_ERROR (n : node) (st : store) (msg : string) :
  calculateSqrtVarOffline n st <> ERROR msg.
Proof.
  unfold calculateSqrtVarOffline, deref, as_float_array.
  destruct (BatchNormalization.var n) as [p |]; [| done].
  destruct (st !! p) as [x |]; simpl; [| done].
  destruct (calculateSqrtVarOffline_loop _ _ _ _) eqn:H; simpl; try done.
  by apply calculateSqrtVarOffline_loop_not_ERROR in H.
Qed.

Lemma allocate_output_not_ERROR (n : node) (st : store) (msg : string) :
  allocate_output n st <> ERROR msg.
Proof.
  unfold allocate_output, follow, deref.
  destruct (BatchNormalization.input n) as [p |]; [| done].
  by destruct (st !! p).
Qed.

Lemma resolve_ERROR_inv (n : node) (st : store) (msg : string) :
  resolve n st = ERROR msg ->
  (length (BatchNormalization.inputs n) <> 5%nat /\
   msg = "wrong number of inputs to BatchNormalization") \/
  (length (BatchNormalization.inputs n) = 5%nat /\
   msg = "Incorrect input for node" /\
   exists p x, p ∈ BatchNormalization.inputs n /\ st !! p = Some x /\
               typeConstraint_plainFloatingPoints x = false) \/
  (length (BatchNormalization.inputs n) = 5%nat /\
   msg = "Unimplemented" /\
   exists p x, p ∈ BatchNormalization.inputs n /\ st !! p = Some x /\
               Tensor.data_type x <> FLOAT).
Proof.
  unfold resolve. intros H.
  destruct (decide _) as [Hlen | Hlen]; [injection H as <-; auto |].
  apply dec_stable in Hlen. right.
  destruct (BatchNormalization.inputs n) as [| p0 [| p1 [| p2 [| p3 [| p4 [| ? ?]]]]]] eqn:Hin;
    try discriminate Hlen.
  clear Hlen. cbn [index lookup list_lookup bind] in H.
  change (register_input p4 _ _) with (bound n p0 p1 p2 p3 p4) in H.
  cbn [bound BatchNormalization.input BatchNormalization.scale BatchNormalization.bias
       BatchNormalization.mean BatchNormalization.var] in H.
  assert (Hin5 : forall p, p ∈ [p0; p1; p2; p3; p4] <-> p = p0 \/ p = p1 \/ p = p2 \/ p = p3 \/ p = p4).
  { intros p. rewrite !elem_of_cons, elem_of_nil. tauto. }
  assert (Hty : forall p, p ∈ [p0; p1; p2; p3; p4] ->
             check_plainFloatingPoints st (Some p) = ERROR msg ->
             msg = "Incorrect input for node" /\
             exists q x, q ∈ [p0; p1; p2; p3; p4] /\ st !! q = Some x /\
                         typeConstraint_plainFloatingPoints x = false).
  { intros p Hp (-> & x & Hx & Hc)%check_plainFloatingPoints_ERROR. eauto 6. }
  assert (Hun : forall p value, p ∈ [p0; p1; p2; p3; p4] ->
             isSplatted st (Some p) value = ERROR msg ->
             msg = "Unimplemented" /\
             exists q x, q ∈ [p0; p1; p2; p3; p4] /\ st !! q = Some x /\
                         Tensor.data_type x <> FLOAT).
  { intros p value Hp (-> & x & Hx & Hc)%isSplatted_ERROR. eauto 6. }
  do 5 (apply bind_ERROR in H as [H | (? & _ & H)];
        [left; split; [done |]; eapply Hty; [| exact H]; apply Hin5; tauto |]).
  right. split; [done |].
  apply bind_ERROR in H as [H | (s1 & _ & H)];
    [eapply Hun; [| exact H]; apply Hin5; tauto |].
  assert (Hbias : forall m, BatchNormalization.bias
            (if s1 then BatchNormalization.set_scale None m else m)
            = BatchNormalization.bias m) by (intros m; by destruct s1).
  rewrite Hbias in H. cbn [bound BatchNormalization.bias] in H.
  apply bind_ERROR in H as [H | (s0 & _ & H)];
    [eapply Hun; [| exact H]; apply Hin5; tauto |].
  exfalso.
  apply bind_ERROR in H as [H | (v & _ & H)].
  { destruct s0, s1; cbn [BatchNormalization.var BatchNormalization.set_bias
      BatchNormalization.set_scale bound follow] in H; unfold deref in H;
      by destruct (st !! p4). }
  apply bind_ERROR in H as [H | (folded & _ & H)].
  - destruct (Tensor.isConst v); [| discriminate].
    apply bind_ERROR in H as [H | (? & _ & H)]; [| discriminate].
    by apply calculateSqrtVarOffline_not_ERROR in H.
  - by apply allocate_output_not_ERROR in H.
Qed.

Lemma isSplatted_well_formed (st : store) (p : ptr) (x : Tensor.t) (value : float) :
  st !! p = Some x -> Tensor.data_type x = FLOAT -> well_formed x ->
  isSplatted st (Some p) value
  = Ok (Tensor.isConst x
        && forallb (fun y => negb (float_neq y value)) (Tensor.data_buffer x)).
Proof.
  intros Hx Hty Hwf. destruct (Tensor.isConst x) eqn:Hc.
  - rewrite (isSplatted_const _ _ _ _ Hx Hty Hc).
    pose proof (Hwf Hc Hty) as Hlen.
    rewrite isSplatted_loop_in_range by (simpl; lia).
    by rewrite drop_0, <- Hlen, firstn_all.
  - simpl. by eapply isSplatted_not_const.
Qed.

Ltac node_simpl :=
  cbn [bind follow fst snd bound
       BatchNormalization.inputs BatchNormalization.input_params
       BatchNormalization.output_params BatchNormalization.sqrt_var_offline
       BatchNormalization.epsilon BatchNormalization.momentum
       BatchNormalization.input BatchNormalization.scale BatchNormalization.bias
       BatchNormalization.mean BatchNormalization.var BatchNormalization.output
       BatchNormalization.set_scale BatchNormalization.set_bias
       BatchNormalization.set_sqrt_var_offline BatchNormalization.set_output
       register_output BatchNormalization.set_output_params].

Ltac resolve_binding Hin :=
  unfold resolve; rewrite Hin;
  destruct (decide _) as [? | _]; [done |];
  cbn [index lookup list_lookup bind];
  match goal with
  | |- context [register_input ?p4 "var" (BatchNormalization.set_var _
         (register_input ?p3 _ (BatchNormalization.set_mean _
           (register_input ?p2 _ (BatchNormalization.set_bias _
             (register_input ?p1 _ (BatchNormalization.set_scale _
               (register_input ?p0 _ (BatchNormalization.set_input _ ?n))))))))) ] =>
    change (register_input p4 "var" _) with (bound n p0 p1 p2 p3 p4)
  end;
  cbn [bound BatchNormalization.input BatchNormalization.scale BatchNormalization.bias
       BatchNormalization.mean BatchNormalization.var].

Lemma resolve_type_error (n : node) (st : store) (p0 p1 p2 p3 p4 : ptr)
    (t0 t1 t2 t3 t4 : Tensor.t) :
  BatchNormalization.inputs n = [p0; p1; p2; p3; p4] ->
  st !! p0 = Some t0 -> st !! p1 = Some t1 -> st !! p2 = Some t2 ->
  st !! p3 = Some t3 -> st !! p4 = Some t4 ->
  (exists t, t ∈ [t0; t1; t2; t3; t4] /\ typeConstraint_plainFloatingPoints t = false) ->
  resolve n st = ERROR "Incorrect input for node".
Proof.
  intros Hin H0 H1 H2 H3 H4 (t & Ht & Hc).
  resolve_binding Hin.
  destruct (typeConstraint_plainFloatingPoints t0) eqn:Hc0;
    [rewrite (check_plainFloatingPoints_pass _ _ _ H0 Hc0) |
     by rewrite (check_plainFloatingPoints_fail _ _ _ H0 Hc0)].
  destruct (typeConstraint_plainFloatingPoints t1) eqn:Hc1;
    [rewrite (check_plainFloatingPoints_pass _ _ _ H1 Hc1) |
     by rewrite (check_plainFloatingPoints_fail _ _ _ H1 Hc1)].
  destruct (typeConstraint_plainFloatingPoints t2) eqn:Hc2;
    [rewrite (check_plainFloatingPoints_pass _ _ _ H2 Hc2) |
     by rewrite (check_plainFloatingPoints_fail _ _ _ H2 Hc2)].
  destruct (typeConstraint_plainFloatingPoints t3) eqn:Hc3;
    [rewrite (check_plainFloatingPoints_pass _ _ _ H3 Hc3) |
     by rewrite (check_plainFloatingPoints_fail _ _ _ H3 Hc3)].
  destruct (typeConstraint_plainFloatingPoints t4) eqn:Hc4;
    [rewrite (check_plainFloatingPoints_pass _ _ _ H4 Hc4) |
     by rewrite (check_plainFloatingPoints_fail _ _ _ H4 Hc4)].
  exfalso. rewrite !elem_of_cons, elem_of_nil in Ht.
  destruct Ht as [-> | [-> | [-> | [-> | [-> | []]]]]]; congruence.
Qed.

Lemma resolve_checks_pass (n : node) (st : store) (p0 p1 p2 p3 p4 : ptr)
    (t0 t1 t2 t3 t4 : Tensor.t) (s1 : bool) :
  BatchNormalization.inputs n = [p0; p1; p2; p3; p4] ->
  st !! p0 = Some t0 -> st !! p1 = Some t1 -> st !! p2 = Some t2 ->
  st !! p3 = Some t3 -> st !! p4 = Some t4 ->
  typeConstraint_plainFloatingPoints t0 = true ->
  typeConstraint_plainFloatingPoints t1 = true ->
  typeConstraint_plainFloatingPoints t2 = true ->
  typeConstraint_plainFloatingPoints t3 = true ->
  typeConstraint_plainFloatingPoints t4 = true ->
  (Tensor.data_type t1 <> FLOAT -> resolve n st = ERROR "Unimplemented") /\
  (isSplatted st (Some p1) float_1_0 = Ok s1 -> Tensor.data_type t2 <> FLOAT ->
   resolve n st = ERROR "Unimplemented") /\
  (forall s0,
     isSplatted st (Some p1) float_1_0 = Ok s1 ->
     isSplatted st (Some p2) float_0_0 = Ok s0 ->
     (Tensor.isConst t4 = true ->
      (Z.to_nat (data_num_elem t4) <= length (Tensor.data_buffer t4))%nat) ->
     exists n' st', resolve n st = Ok (n', st')).
Proof.
  intros Hin H0 H1 H2 H3 H4 Hc0 Hc1 Hc2 Hc3 Hc4.
  resolve_binding Hin.
  rewrite (check_plainFloatingPoints_pass _ _ _ H0 Hc0).
  rewrite (check_plainFloatingPoints_pass _ _ _ H1 Hc1).
  rewrite (check_plainFloatingPoints_pass _ _ _ H2 Hc2).
  rewrite (check_plainFloatingPoints_pass _ _ _ H3 Hc3).
  rewrite (check_plainFloatingPoints_pass _ _ _ H4 Hc4).
  cbn [bind]. split; [| split].
  - intros Hty. by rewrite (isSplatted_not_FLOAT _ _ _ _ H1 Hty).
  - intros -> Hty. cbn [bind].
    destruct s1; node_simpl; by rewrite (isSplatted_not_FLOAT _ _ _ _ H2 Hty).
  - intros s0 -> Hs0 Hvar. cbn [bind].
    assert (Hfold : exists stf, length stf = length st /\
      (if Tensor.isConst t4 then
         forall m, BatchNormalization.var m = Some p4 ->
           BatchNormalization.epsilon m = BatchNormalization.epsilon n ->
           calculateSqrtVarOffline m st = Ok stf
       else stf = st)).
    { destruct (Tensor.isConst t4) eqn:Hconst; [| by exists st].
      pose proof (Hvar eq_refl) as Hlen.
      pose proof (calculateSqrtVarOffline_loop_in_range
        (BatchNormalization.epsilon n) _ 0 (Tensor.data_buffer t4) Hlen) as Hloop.
      destruct (calculateSqrtVarOffline_loop _ _ _ _) as [v' | |] eqn:Hv'; try done.
      exists (<[p4 := Tensor.with_data_buffer v' t4]> st).
      split; [by rewrite length_insert |].
      intros m Hm Heps. unfold calculateSqrtVarOffline, deref, as_float_array.
      rewrite Hm, H4. cbn [bind]. rewrite Heps, Hv'. done. }
    destruct Hfold as (stf & Hlen & Hfold).
    assert (HX : exists X, stf !! p0 = Some X).
    { apply lookup_lt_is_Some_2. rewrite Hlen. by eapply lookup_lt_Some. }
    destruct HX as [X HX].
    destruct s1, s0; node_simpl; rewrite Hs0; node_simpl;
      unfold deref; rewrite H4; node_simpl;
      (destruct (Tensor.isConst t4);
       [rewrite Hfold by done | subst stf];
       node_simpl; unfold allocate_output; node_simpl;
       unfold deref; rewrite HX; node_simpl; eauto).
Qed.

(** ** Emitted text *)

Lemma append_assoc (a b c : string) : (a +:+ b) +:+ c = a +:+ (b +:+ c).
Proof.
  induction a as [| ch a IH]; [done |].
  change (String ch ((a +:+ b) +:+ c) = String ch (a +:+ (b +:+ c))).
  by rewrite IH.
Qed.

Lemma append_nil_r (a : string) : a +:+ "" = a.
Proof.
  induction a as [| ch a IH]; [done |].
  change (String ch (a +:+ "") = String ch a). by rewrite IH.
Qed.

Lemma text_cons (a : string) (l : list string) : text (a :: l) = a +:+ text l.
Proof. done. Qed.

Lemma text_app (l1 l2 : list string) : text (l1 ++ l2) = text l1 +:+ text l2.
Proof.
  induction l1 as [| a l1 IH]; [done |].
  rewrite <- app_comm_cons, !text_cons, IH. by rewrite append_assoc.
Qed.

Lemma text_replicate_end (k : nat) :
  print_data_loops_end k = text (replicate k spec_loop_end).
Proof.
  induction k as [| k IH]; [done |].
  cbn [print_data_loops_end replicate]. rewrite text_cons, IH.
  unfold spec_loop_end. by rewrite !append_assoc.
Qed.

Lemma print_idxs_spec (k : nat) :
  forall (i : nat) (idxs : string),
    print_idxs k i idxs
    = idxs +:+ text (map (fun j => "[i" +:+ pretty j +:+ "]") (seq i k)).
Proof.
  induction k as [| k IH]; intros i idxs; cbn [print_idxs seq map].
  - by rewrite append_nil_r.
  - by rewrite IH, text_cons, !append_assoc.
Qed.

Lemma imap_from (A : Type) (f : nat -> string) (l : list A) :
  forall i : nat, imap (fun j _ => f (i + j)%nat) l = map f (seq i (length l)).
Proof.
  induction l as [| x l IH]; intros i; [done |].
  cbn [imap length seq map]. rewrite Nat.add_0_r. f_equal.
  rewrite <- IH. apply imap_ext. intros j y _. simpl. f_equal. lia.
Qed.

Lemma print_data_loops_spec (data_dim : list Z) (k : nat) :
  forall i : nat,
    (2 <= i)%nat -> (i + k = length data_dim)%nat ->
    print_data_loops data_dim k i
    = Ok (text (imap (fun j => spec_loop (i + j)) (drop i data_dim))).
Proof.
  induction k as [| k IH]; intros i Hi Hlen; cbn [print_data_loops].
  - by rewrite drop_ge by lia.
  - destruct (index_lt data_dim i) as (d & Hd & ->); [lia |]. cbn [bind].
    rewrite IH by lia. cbn [bind].
    rewrite (drop_S _ _ _ Hd). cbn [imap]. rewrite text_cons, Nat.add_0_r.
    rewrite (imap_ext (spec_loop ∘ Nat.add i ∘ S) (fun j => spec_loop (S i + j)))
      by (intros j y _; simpl; f_equal; lia).
    f_equal. destruct i as [| [| i]]; [lia.. |].
    unfold spec_loop, spec_loop_type, spec_loop_counter.
    rewrite !append_assoc. reflexivity.
Qed.

Lemma spec_element_index_eq (batch chan : Z) (spatial : list Z) :
  print_idxs (length spatial) 2 "[b][c]"
  = spec_element_index (batch :: chan :: spatial).
Proof.
  rewrite print_idxs_spec. unfold spec_element_index. cbn [imap].
  rewrite !text_cons.
  rewrite <- (imap_from Z (fun j => "[i" +:+ pretty j +:+ "]") spatial 2).
  rewrite (imap_ext (_ ∘ S ∘ S)
             (fun j (_ : Z) => "[i" +:+ pretty (2 + j)%nat +:+ "]") spatial)
    by (intros j y _; unfold compose; cbn [spec_loop_counter];
        by rewrite append_assoc).
  reflexivity.
Qed.

Lemma spec_loop_nest_eq (batch chan : Z) (spatial : list Z) :
  text (spec_loop_nest (batch :: chan :: spatial))
  = tab +:+ "for( int32_t b=0; b<" +:+ pretty batch +:+ "; b++ ) {" +:+ endl
    +:+ tab +:+ "for( int32_t c=0; c<" +:+ pretty chan +:+ "; c++ ) {" +:+ endl
    +:+ text (imap (fun j => spec_loop (2 + j)) spatial).
Proof.
  unfold spec_loop_nest. cbn [imap]. rewrite !text_cons.
  change (imap (spec_loop ∘ S ∘ S) spatial)
    with (imap (fun j => spec_loop (2 + j)) spatial).
  generalize (text (imap (fun j => spec_loop (2 + j)) spatial)). intros rest.
  unfold compose, spec_loop. cbn [spec_loop_type spec_loop_counter].
  rewrite !append_assoc. reflexivity.
Qed.

(** C4. For an input of rank R >= 2 the emitted text is: the comment, the
    declaration of the epsilon literal exactly when the variance was not
    folded, R loop headers (batch, channel, then one per spatial axis, each
    bounded by the static extent of its axis), the two statements of the
    body, and R closing braces. *)
Theorem print_loop_nest (n : node) (st : store) (X : Tensor.t) :
  follow st (BatchNormalization.input n) = Ok X ->
  (2 <= length (Tensor.data_dim X))%nat ->
  print n st
  = Ok (print_comment n
        +:+ (if BatchNormalization.sqrt_var_offline n then ""
             else INDT_1 +:+ "float epsilon = "
                  +:+ show_float (BatchNormalization.epsilon n) +:+ ";" +:+ endl)
        +:+ text (spec_loop_nest (Tensor.data_dim X))
        +:+ print_tmp_X (data_type_str X) (spec_element_index (Tensor.data_dim X)) n
        +:+ print_output (spec_element_index (Tensor.data_dim X)) n
        +:+ text (replicate (length (Tensor.data_dim X)) spec_loop_end))
  /\ length (spec_loop_nest (Tensor.data_dim X)) = length (Tensor.data_dim X)
  /\ (forall (axis : nat) (extent : Z),
        Tensor.data_dim X !! axis = Some extent ->
        spec_loop_nest (Tensor.data_dim X) !! axis = Some (spec_loop axis extent)).
Proof.
  intros HX Hrank. split; [| split].
  - unfold print. rewrite HX. cbn [bind].
    destruct (Tensor.data_dim X) as [| batch [| chan spatial]] eqn:Hdim;
      [simpl in Hrank; lia.. |].
    cbn [index lookup list_lookup bind length Nat.sub].
    rewrite Nat.sub_0_r.
    rewrite print_data_loops_spec by (simpl; lia). cbn [bind drop].
    rewrite spec_element_index_eq with (batch := batch) (chan := chan).
    rewrite spec_loop_nest_eq, text_replicate_end.
    replace (S (S (length spatial))) with (length spatial + 2)%nat by lia.
    rewrite replicate_add, text_app. cbn [replicate]. rewrite !text_cons.
    change (text []) with "". rewrite append_nil_r.
    generalize (text (replicate (length spatial) spec_loop_end)). intros ends.
    unfold print_epsilon, spec_loop_end.
    destruct (BatchNormalization.sqrt_var_offline n); cbn [decide_rel];
      rewrite ?decide_True, ?decide_False by done;
      rewrite !append_assoc; reflexivity.
  - unfold spec_loop_nest. apply length_imap.
  - intros axis extent Hx. unfold spec_loop_nest.
    by rewrite list_lookup_imap, Hx.
Qed.

Lemma isSplatted_Ok_FLOAT (st : store) (p : ptr) (x : Tensor.t) (value : float) (r : bool) :
  st !! p = Some x -> isSplatted st (Some p) value = Ok r ->
  Tensor.data_type x = FLOAT.
Proof.
  intros Hx H. destruct (decide (Tensor.data_type x = FLOAT)) as [| Hty]; [done |].
  by rewrite (isSplatted_not_FLOAT _ _ _ _ Hx Hty) in H.
Qed.

Lemma isSplatted_all_equal (st : store) (p : ptr) (x : Tensor.t) (value : float) (r : bool) :
  st !! p = Some x -> isSplatted st (Some p) value = Ok r ->
  Tensor.isConst x = true ->
  (forall j : nat, (j < Z.to_nat (data_num_elem x))%nat ->
     exists y, Tensor.data_buffer x !! j = Some y /\ float_neq y value = false) ->
  r = true.
Proof.
  intros Hx H Hc Hall.
  pose proof (isSplatted_Ok_FLOAT _ _ _ _ _ Hx H) as Hty.
  rewrite (isSplatted_const _ _ _ _ Hx Hty Hc) in H.
  assert (Htrue : isSplatted_loop (Tensor.data_buffer x) value
                    (Z.to_nat (data_num_elem x)) 0 = Ok true).
  { apply isSplatted_loop_true. intros j Hj. apply Hall. lia. }
  congruence.
Qed.

(** C3. When the scale operand is constant and all ones, resolution nulls
    [scale] and the assignment is written without a scale factor; when the
    bias operand is constant and all zeros, resolution nulls [bias] and the
    assignment is written without a bias term. *)
Theorem resolve_identity_elision (n n' : node) (st st' : store)
    (ps pb : ptr) (ts tb : Tensor.t) :
  resolve n st = Ok (n', st') ->
  BatchNormalization.inputs n !! 1%nat = Some ps ->
  BatchNormalization.inputs n !! 2%nat = Some pb ->
  st !! ps = Some ts -> st !! pb = Some tb ->
  (Tensor.isConst ts = true ->
   (forall j : nat, (j < Z.to_nat (data_num_elem ts))%nat ->
      exists y, Tensor.data_buffer ts !! j = Some y /\ float_neq y float_1_0 = false) ->
   BatchNormalization.scale n' = None /\
   forall idxs : string,
     print_output idxs n'
     = INDT_2 +:+ "output" +:+ idxs +:+ " = tmp_X "
       +:+ match BatchNormalization.bias n' with
           | Some _ => " + bias[c]"
           | None => ""
           end
       +:+ ";" +:+ endl) /\
  (Tensor.isConst tb = true ->
   (forall j : nat, (j < Z.to_nat (data_num_elem tb))%nat ->
      exists y, Tensor.data_buffer tb !! j = Some y /\ float_neq y float_0_0 = false) ->
   BatchNormalization.bias n' = None /\
   forall idxs : string,
     print_output idxs n'
     = INDT_2 +:+ "output" +:+ idxs +:+ " = tmp_X "
       +:+ match BatchNormalization.scale n' with
           | Some _ => "* scale[c]"
           | None => ""
           end
       +:+ ";" +:+ endl).
Proof.
  intros H Hps Hpb Hts Htb.
  apply resolve_Ok_inv in H
    as (p0 & p1 & p2 & p3 & p4 & t0 & t1 & t2 & t3 & t4 & s1 & s0 & stf
        & Hin & (_ & H1 & H2 & _) & _ & Hs1 & Hs0 & _ & _ & ->).
  rewrite Hin in Hps, Hpb. injection Hps as ->. injection Hpb as ->.
  assert (t1 = ts) as -> by congruence. assert (t2 = tb) as -> by congruence.
  split; intros Hc Hall.
  - assert (s1 = true) as ->
      by exact (isSplatted_all_equal _ _ _ _ _ Hts Hs1 Hc Hall).
    split; [done |]. intros idxs. unfold print_output.
    cbn [BatchNormalization.scale BatchNormalization.bias]. reflexivity.
  - assert (s0 = true) as ->
      by exact (isSplatted_all_equal _ _ _ _ _ Htb Hs0 Hc Hall).
    split; [done |]. intros idxs. unfold print_output.
    cbn [BatchNormalization.scale BatchNormalization.bias].
    destruct s1; reflexivity.
Qed.

(** C1, at the operands where the code departs from it: a constant
    variance of doubles. Such a tensor passes the type check of line 181,
    and [calculateSqrtVarOffline] casts its storage to [float *] as it
    would any other (the guard of [isSplatted] at line 133 has no
    counterpart here). Resolution returns with [sqrt_var_offline] set; of
    the [2 * n] slots that hold the [n] doubles it has rewritten the first
    [n], each as the [float] [sqrt(x + epsilon)] of the [float] [x] found
    there, and it has left the others alone, so that every double that lies
    wholly in the second half of the storage is what it was before, not
    [sqrt(original + epsilon)]. *)
Theorem resolve_variance_of_doubles (n n' : node) (st st' : store)
    (pv : ptr) (tv : Tensor.t) :
  resolve n st = Ok (n', st') ->
  BatchNormalization.inputs n !! 4%nat = Some pv ->
  st !! pv = Some tv ->
  Tensor.isConst tv = true ->
  Tensor.data_type tv = DOUBLE ->
  length (Tensor.data_buffer tv) = (2 * Z.to_nat (data_num_elem tv))%nat ->
  BatchNormalization.sqrt_var_offline n' = true /\
  exists tv',
    st' !! pv = Some tv' /\
    Tensor.data_type tv' = DOUBLE /\
    length (Tensor.data_buffer tv') = length (Tensor.data_buffer tv) /\
    (forall j : nat, (j < Z.to_nat (data_num_elem tv))%nat ->
       exists x, Tensor.data_buffer tv !! j = Some x /\
                 Tensor.data_buffer tv' !! j
                 = Some (float_sqrt (float_add x (BatchNormalization.epsilon n)))) /\
    (forall i : nat, (Z.to_nat (data_num_elem tv) <= 2 * i)%nat ->
       Tensor.data_buffer tv' !! (2 * i)%nat = Tensor.data_buffer tv !! (2 * i)%nat /\
       Tensor.data_buffer tv' !! (2 * i + 1)%nat
       = Tensor.data_buffer tv !! (2 * i + 1)%nat).
Proof.
  intros H Hpv Htv Hc Hty Hsize.
  apply resolve_Ok_inv in H
    as (p0 & p1 & p2 & p3 & p4 & t0 & t1 & t2 & t3 & t4 & s1 & s0 & stf
        & Hin & (_ & _ & _ & _ & H4) & _ & _ & _ & Hstf & -> & ->).
  rewrite Hin in Hpv. injection Hpv as ->.
  assert (t4 = tv) as -> by congruence.
  rewrite Hc in Hstf |- *. destruct Hstf as (v' & Hloop & ->).
  apply calculateSqrtVarOffline_loop_Ok in Hloop as (Hlen & Hin' & Hout).
  split; [done |].
  exists (Tensor.with_data_buffer v' tv). split; [| split; [done |]].
  - rewrite lookup_app_l by (rewrite length_insert; by eapply lookup_lt_Some).
    apply list_lookup_insert_eq. by eapply lookup_lt_Some.
  - split; [done |]. split.
    + intros j Hj. apply Hin'. lia.
    + intros i Hi. split; apply Hout; lia.
Qed.

(** X17. The variance fold where it does what it is meant to. For every
    constant variance operand [sqrt_var_offline] is set, no epsilon literal
    is declared and the quotient is taken by [var[c]] as it stands; when
    the operand is single-precision, each of its [data_num_elem] elements
    has been replaced, in the store, by [sqrt(v + epsilon)]. With a
    non-constant variance operand every tensor of the store is left as it
    was, the flag keeps its value, and, the flag being false as the
    constructor leaves it, the quotient is taken by
    [sqrt( var[c] + epsilon)]. *)
Theorem resolve_single_precision_variance (n n' : node) (st st' : store)
    (pv : ptr) (tv : Tensor.t) :
  resolve n st = Ok (n', st') ->
  BatchNormalization.inputs n !! 4%nat = Some pv ->
  st !! pv = Some tv ->
  (Tensor.isConst tv = true ->
   (Tensor.data_type tv = FLOAT ->
    exists tv',
      st' !! pv = Some tv' /\
      length (Tensor.data_buffer tv') = length (Tensor.data_buffer tv) /\
      forall j : nat, (j < Z.to_nat (data_num_elem tv))%nat ->
        exists x, Tensor.data_buffer tv !! j = Some x /\
                  Tensor.data_buffer tv' !! j
                  = Some (float_sqrt (float_add x (BatchNormalization.epsilon n)))) /\
   BatchNormalization.sqrt_var_offline n' = true /\
   print_epsilon n' = "" /\
   forall type idxs : string,
     print_tmp_X type idxs n'
     = INDT_2 +:+ type +:+ " tmp_X = ( X" +:+ idxs +:+ " - mean[c] ) / "
       +:+ "( var[c] );" +:+ endl) /\
  (Tensor.isConst tv = false ->
   (forall (p : ptr) (x : Tensor.t), st !! p = Some x -> st' !! p = Some x) /\
   BatchNormalization.sqrt_var_offline n' = BatchNormalization.sqrt_var_offline n /\
   (BatchNormalization.sqrt_var_offline n = false ->
    print_epsilon n'
    = INDT_1 +:+ "float epsilon = " +:+ show_float (BatchNormalization.epsilon n)
      +:+ ";" +:+ endl /\
    forall type idxs : string,
      print_tmp_X type idxs n'
      = INDT_2 +:+ type +:+ " tmp_X = ( X" +:+ idxs +:+ " - mean[c] ) / "
        +:+ "( sqrt( var[c] + epsilon));" +:+ endl)).
Proof.
  intros H Hpv Htv.
  apply resolve_Ok_inv in H
    as (p0 & p1 & p2 & p3 & p4 & t0 & t1 & t2 & t3 & t4 & s1 & s0 & stf
        & Hin & (_ & _ & _ & _ & H4) & _ & _ & _ & Hstf & -> & ->).
  rewrite Hin in Hpv. injection Hpv as ->.
  assert (t4 = tv) as -> by congruence.
  split; intros Hc; rewrite Hc in Hstf |- *.
  - destruct Hstf as (v' & Hloop & ->).
    apply calculateSqrtVarOffline_loop_Ok in Hloop as (Hlen & Hin' & _).
    split; [| by split]. intros _.
    exists (Tensor.with_data_buffer v' tv). split; [| split; [done |]].
    + rewrite lookup_app_l by (rewrite length_insert; by eapply lookup_lt_Some).
      apply list_lookup_insert_eq. by eapply lookup_lt_Some.
    + intros j Hj. apply Hin'. lia.
  - subst stf. split; [| split; [done |]].
    + intros p x Hx. rewrite lookup_app_l; [done | by eapply lookup_lt_Some].
    + cbn [BatchNormalization.sqrt_var_offline]. intros Hflag.
      unfold print_epsilon, print_tmp_X.
      cbn [BatchNormalization.sqrt_var_offline BatchNormalization.epsilon].
      rewrite Hflag. by rewrite decide_True.
Qed.

Lemma print_low_rank (n : node) (st : store) (X : Tensor.t) :
  follow st (BatchNormalization.input n) = Ok X ->
  (length (Tensor.data_dim X) < 2)%nat ->
  print n st = Undefined OutOfBounds.
Proof.
  intros HX Hrank. unfold print. rewrite HX. cbn [bind].
  destruct (Tensor.data_dim X) as [| batch [| chan spatial]];
    [done | done | simpl in Hrank; lia].
Qed.

(** C10. Resolution does not look at the rank of the input: with operands
    that pass every check it succeeds whatever the input's shape is, and
    leaves that shape as it was; emission on an input of rank 0 or 1 then
    indexes [data_dim] past its end. *)
Theorem resolve_ignores_rank (n : node) (st : store) (p0 p1 p2 p3 p4 : ptr)
    (t0 t1 t2 t3 t4 : Tensor.t) :
  BatchNormalization.inputs n = [p0; p1; p2; p3; p4] ->
  st !! p0 = Some t0 -> st !! p1 = Some t1 -> st !! p2 = Some t2 ->
  st !! p3 = Some t3 -> st !! p4 = Some t4 ->
  typeConstraint_plainFloatingPoints t0 = true ->
  Tensor.data_type t1 = FLOAT -> Tensor.data_type t2 = FLOAT ->
  typeConstraint_plainFloatingPoints t3 = true ->
  Tensor.data_type t4 = FLOAT ->
  well_formed t1 -> well_formed t2 -> well_formed t4 ->
  exists (n' : node) (st' : store) (X : Tensor.t),
    resolve n st = Ok (n', st') /\
    follow st' (BatchNormalization.input n') = Ok X /\
    Tensor.data_dim X = Tensor.data_dim t0 /\
    ((length (Tensor.data_dim t0) < 2)%nat ->
     print n' st' = Undefined OutOfBounds).
Proof.
  intros Hin H0 H1 H2 H3 H4 Hc0 Hty1 Hty2 Hc3 Hty4 Hwf1 Hwf2 Hwf4.
  assert (Hc : forall t, Tensor.data_type t = FLOAT ->
                         typeConstraint_plainFloatingPoints t = true).
  { intros t Ht. unfold typeConstraint_plainFloatingPoints. by rewrite Ht. }
  destruct (resolve_checks_pass n st p0 p1 p2 p3 p4 t0 t1 t2 t3 t4
              (Tensor.isConst t1
               && forallb (fun y => negb (float_neq y float_1_0)) (Tensor.data_buffer t1))
              Hin H0 H1 H2 H3 H4 Hc0 (Hc _ Hty1) (Hc _ Hty2) Hc3 (Hc _ Hty4))
    as (_ & _ & Hok).
  destruct (Hok _ (isSplatted_well_formed _ _ _ _ H1 Hty1 Hwf1)
                  (isSplatted_well_formed _ _ _ _ H2 Hty2 Hwf2)) as (n' & st' & Hres).
  { intros Hconst. by rewrite Hwf4. }
  pose proof Hres as Hinv.
  apply resolve_Ok_inv in Hinv
    as (q0 & q1 & q2 & q3 & q4 & u0 & u1 & u2 & u3 & u4 & s1 & s0 & stf
        & Hin' & (H0' & _ & _ & _ & H4') & _ & _ & _ & Hstf & -> & ->).
  rewrite Hin in Hin'. injection Hin' as <- <- <- <- <-.
  assert (u0 = t0) as -> by congruence. assert (u4 = t4) as -> by congruence.
  assert (HX : exists X, stf !! p0 = Some X /\ Tensor.data_dim X = Tensor.data_dim t0).
  { destruct (Tensor.isConst t4); [| subst stf; eauto].
    destruct Hstf as (v' & _ & ->).
    destruct (decide (p0 = p4)) as [-> | Hne].
    - assert (t0 = t4) as -> by congruence.
      exists (Tensor.with_data_buffer v' t4).
      by rewrite list_lookup_insert_eq by (by eapply lookup_lt_Some).
    - exists t0. by rewrite list_lookup_insert_ne. }
  destruct HX as (X & HX & Hdim).
  assert (Hfollow : follow
            (stf ++ [Tensor.mk (Tensor.data_dim t0) (Tensor.data_type t0) false []])
            (Some p0) = Ok X).
  { cbn [follow]. apply deref_Ok.
    rewrite lookup_app_l; [done | by eapply lookup_lt_Some]. }
  eexists _, _, X. split; [exact Hres |]. split; [exact Hfollow |].
  split; [done |]. intros Hrank.
  apply print_low_rank with X; [exact Hfollow | by rewrite Hdim].
Qed.

(** ** Resolution: the claims *)

(** C2, as the code has it. [isSplatted] looks at the element type first:
    a tensor that is not single-precision float raises "Unimplemented"
    whether it is constant or not; a non-constant single-precision tensor
    gives false; a constant single-precision tensor gives true exactly when
    every stored element compares equal to the value. *)
Theorem isSplatted_spec (st : store) (p : ptr) (x : Tensor.t) (value : float) :
  st !! p = Some x ->
  (Tensor.data_type x <> FLOAT ->
   isSplatted st (Some p) value = ERROR "Unimplemented") /\
  (Tensor.data_type x = FLOAT -> Tensor.isConst x = false ->
   isSplatted st (Some p) value = Ok false) /\
  (Tensor.data_type x = FLOAT -> well_formed x ->
   exists r, isSplatted st (Some p) value = Ok r /\
     (r = true <->
      Tensor.isConst x = true /\
      forall y, y ∈ Tensor.data_buffer x -> float_neq y value = false)).
Proof.
  intros Hx. split; [| split].
  - by apply isSplatted_not_FLOAT.
  - by apply isSplatted_not_const.
  - intros Hty Hwf. eexists. split; [by apply isSplatted_well_formed |].
    rewrite andb_true_iff, forallb_forall.
    setoid_rewrite negb_true_iff. setoid_rewrite <- list_elem_of_In. done.
Qed.

(** C2, refuted as stated: "returns false for any non-constant tensor"
    fails on a non-constant tensor of doubles, for which [isSplatted]
    raises "Unimplemented". *)
Lemma isSplatted_nonconst_double :
  ~ (forall (st : store) (p : ptr) (x : Tensor.t) (value : float),
       st !! p = Some x -> Tensor.isConst x = false ->
       isSplatted st (Some p) value = Ok false).
Proof.
  intros H.
  specialize (H [Tensor.mk [3] DOUBLE false []] 0%nat
                (Tensor.mk [3] DOUBLE false []) float_1_0 eq_refl eq_refl).
  discriminate H.
Qed.

(** C6. Resolution fails with "wrong number of inputs to BatchNormalization"
    whenever the operand list does not have exactly five elements, and with
    five operands it never fails with that error. *)
Theorem resolve_arity (n : node) (st : store) :
  (length (BatchNormalization.inputs n) <> 5%nat ->
   resolve n st = ERROR "wrong number of inputs to BatchNormalization") /\
  (length (BatchNormalization.inputs n) = 5%nat ->
   resolve n st <> ERROR "wrong number of inputs to BatchNormalization").
Proof.
  split.
  - intros Hlen. unfold resolve. by rewrite decide_True.
  - intros Hlen H. apply resolve_ERROR_inv in H as [[? _] | [(_ & ? & _) | (_ & ? & _)]];
      done.
Qed.

(** C5. After a successful resolution the node's [output] is a tensor that
    did not exist before, with the shape and the element type of the input,
    registered under the name "output"; it is the only registered output of
    a node that had none. *)
Theorem resolve_output (n n' : node) (st st' : store) (p0 : ptr) (X : Tensor.t) :
  resolve n st = Ok (n', st') ->
  BatchNormalization.inputs n !! 0%nat = Some p0 ->
  st !! p0 = Some X ->
  exists (p : ptr) (rv : Tensor.t),
    st !! p = None /\
    st' !! p = Some rv /\
    Tensor.data_dim rv = Tensor.data_dim X /\
    Tensor.data_type rv = Tensor.data_type X /\
    BatchNormalization.output n' = Some p /\
    BatchNormalization.output_params n'
    = BatchNormalization.output_params n ++ [(p, "output")] /\
    (BatchNormalization.output_params n = [] ->
     BatchNormalization.output_params n' = [(p, "output")]).
Proof.
  intros H Hp0 HX.
  apply resolve_Ok_inv in H
    as (q0 & p1 & p2 & p3 & p4 & t0 & t1 & t2 & t3 & t4 & s1 & s0 & stf
        & Hin & (H0 & _) & _ & _ & _ & Hstf & -> & ->).
  rewrite Hin in Hp0. injection Hp0 as ->.
  assert (t0 = X) as -> by congruence.
  assert (Hlen : length stf = length st).
  { destruct (Tensor.isConst t4); [| by subst].
    destruct Hstf as (v' & _ & ->). apply length_insert. }
  exists (length st), (Tensor.mk (Tensor.data_dim X) (Tensor.data_type X) false []).
  split; [by apply lookup_ge_None_2 |].
  split; [by rewrite <- Hlen, list_lookup_middle |].
  cbn. repeat split; try done. by intros ->.
Qed.

Lemma elem_of_operands (st : store) (p0 p1 p2 p3 p4 p : ptr)
    (t0 t1 t2 t3 t4 x : Tensor.t) :
  st !! p0 = Some t0 -> st !! p1 = Some t1 -> st !! p2 = Some t2 ->
  st !! p3 = Some t3 -> st !! p4 = Some t4 ->
  p ∈ [p0; p1; p2; p3; p4] -> st !! p = Some x ->
  x ∈ [t0; t1; t2; t3; t4].
Proof.
  intros H0 H1 H2 H3 H4 Hp Hx.
  rewrite !elem_of_cons, elem_of_nil in Hp. rewrite !elem_of_cons.
  destruct Hp as [-> | [-> | [-> | [-> | [-> | []]]]]];
    [left | right; left | do 2 right; left | do 3 right; left | do 4 right; left];
    congruence.
Qed.

(** C7. With five operands in the store, resolution fails with "Incorrect
    input for node" exactly when one of them does not have a plain
    floating-point element type; an operand of an integer or boolean type
    is one such. *)
Theorem resolve_type_check (n : node) (st : store) (p0 p1 p2 p3 p4 : ptr)
    (t0 t1 t2 t3 t4 : Tensor.t) :
  BatchNormalization.inputs n = [p0; p1; p2; p3; p4] ->
  st !! p0 = Some t0 -> st !! p1 = Some t1 -> st !! p2 = Some t2 ->
  st !! p3 = Some t3 -> st !! p4 = Some t4 ->
  (resolve n st = ERROR "Incorrect input for node" <->
   exists t, t ∈ [t0; t1; t2; t3; t4] /\
             typeConstraint_plainFloatingPoints t = false) /\
  (forall t, t ∈ [t0; t1; t2; t3; t4] ->
     Tensor.data_type t ∈ [UINT8; INT8; UINT16; INT16; INT32; INT64;
                           UINT32; UINT64; BOOL] ->
     resolve n st = ERROR "Incorrect input for node").
Proof.
  intros Hin H0 H1 H2 H3 H4.
  assert (Hfail : (exists t, t ∈ [t0; t1; t2; t3; t4] /\
             typeConstraint_plainFloatingPoints t = false) ->
          resolve n st = ERROR "Incorrect input for node")
    by (by apply resolve_type_error with p0 p1 p2 p3 p4).
  split; [split; [| done] |].
  - intros H. apply resolve_ERROR_inv in H
      as [[_ ?] | [(_ & _ & p & x & Hp & Hx & Hc) | (_ & ? & _)]]; try done.
    exists x. split; [| done]. rewrite Hin in Hp.
    by apply elem_of_operands with st p0 p1 p2 p3 p4 p.
  - intros t Ht Hty. apply Hfail. exists t. split; [done |].
    unfold typeConstraint_plainFloatingPoints.
    rewrite !elem_of_cons, elem_of_nil in Hty.
    destruct Hty as [-> | [-> | [-> | [-> | [-> | [-> | [-> | [-> | [-> | []]]]]]]]]];
      done.
Qed.

(** C9. When all five operands have plain floating-point types and the
    scale or the bias operand is not single-precision (double or float16,
    say), resolution fails with "Unimplemented", whether that operand is
    constant or not: [isSplatted] looks at the element type before it looks
    at [isConst]. *)
Theorem resolve_scale_bias_not_single_precision (n : node) (st : store)
    (p0 p1 p2 p3 p4 : ptr) (t0 t1 t2 t3 t4 : Tensor.t) :
  BatchNormalization.inputs n = [p0; p1; p2; p3; p4] ->
  st !! p0 = Some t0 -> st !! p1 = Some t1 -> st !! p2 = Some t2 ->
  st !! p3 = Some t3 -> st !! p4 = Some t4 ->
  typeConstraint_plainFloatingPoints t0 = true ->
  typeConstraint_plainFloatingPoints t1 = true ->
  typeConstraint_plainFloatingPoints t2 = true ->
  typeConstraint_plainFloatingPoints t3 = true ->
  typeConstraint_plainFloatingPoints t4 = true ->
  well_formed t1 ->
  Tensor.data_type t1 <> FLOAT \/ Tensor.data_type t2 <> FLOAT ->
  resolve n st = ERROR "Unimplemented".
Proof.
  intros Hin H0 H1 H2 H3 H4 Hc0 Hc1 Hc2 Hc3 Hc4 Hwf Hty.
  destruct (decide (Tensor.data_type t1 = FLOAT)) as [Hty1 | Hty1].
  - destruct Hty as [? | Hty2]; [done |].
    pose proof (isSplatted_well_formed st p1 t1 float_1_0 H1 Hty1 Hwf) as Hs1.
    destruct (resolve_checks_pass n st p0 p1 p2 p3 p4 t0 t1 t2 t3 t4
                (Tensor.isConst t1
                 && forallb (fun y => negb (float_neq y float_1_0)) (Tensor.data_buffer t1))
                Hin H0 H1 H2 H3 H4 Hc0 Hc1 Hc2 Hc3 Hc4) as (_ & Hbias & _).
    by apply Hbias.
  - destruct (resolve_checks_pass n st p0 p1 p2 p3 p4 t0 t1 t2 t3 t4 false
                Hin H0 H1 H2 H3 H4 Hc0 Hc1 Hc2 Hc3 Hc4) as (Hscale & _).
    by apply Hscale.
Qed.

(** ** Attribute parsing: the claims *)

Lemma parseAttributes_loop_app (pre l : list AttributeProto.t) :
  forall n : node,
    parseAttributes_loop (pre ++ l) n
    = (n1 <~ parseAttributes_loop pre n;; parseAttributes_loop l n1).
Proof.
  induction pre as [| a pre IH]; intros n; [done |].
  cbn [app parseAttributes_loop].
  destruct (parseAttributes_body a n) as [n' | msg | u]; cbn [bind]; [apply IH | done..].
Qed.

Lemma parseAttributes_body_Ok (a : AttributeProto.t) (n n' : node) :
  parseAttributes_body a n = Ok n' ->
  ((AttributeProto.name a = "epsilon" \/ AttributeProto.name a = "momentum") /\
   AttributeProto.type a = AttributeType_FLOAT /\ AttributeProto.has_f a = true) \/
  (AttributeProto.name a = "spatial" /\ parse_attribute_int a = Ok 1).
Proof.
  unfold parseAttributes_body, parseAttribute_epsilon, parseAttribute_momentum.
  intros H.
  repeat (destruct (decide _) as [? | ?] in H; try discriminate H).
  - left. split; [by left |]. split; [by apply dec_stable |].
    by destruct (AttributeProto.has_f a).
  - left. split; [by right |]. split; [by apply dec_stable |].
    by destruct (AttributeProto.has_f a).
  - right. split; [done |].
    destruct (parse_attribute_int a) as [v | |]; try discriminate H.
    cbn [bind] in H. destruct (decide (v <> 1)) as [| Hv]; [discriminate |].
    apply dec_stable in Hv. by subst.
Qed.

(** C8. Attribute parsing goes through the records in order and stops at
    the first one it rejects. It succeeds only when every record is named
    epsilon, momentum or spatial (and is a float with a value, respectively
    the integer 1). At the first rejected record: an epsilon or momentum
    record that is not of type FLOAT or carries no value gives "Bad
    attribute <name>"; a spatial record whose integer is not 1 gives
    "non-default value for 'spatial' attribute not implemented"; a record
    of any other name gives "Unknown attribute <name>". *)
Theorem parseAttributes_spec (proto : NodeProto.t) (n : node) :
  (forall n' : node,
     parseAttributes proto n = Ok n' ->
     Forall (fun a =>
               AttributeProto.name a ∈ ["epsilon"; "momentum"; "spatial"])
            (NodeProto.attribute proto)) /\
  (forall (pre post : list AttributeProto.t) (a : AttributeProto.t) (n1 : node),
     NodeProto.attribute proto = pre ++ a :: post ->
     parseAttributes_loop pre n = Ok n1 ->
     ((AttributeProto.name a = "epsilon" \/ AttributeProto.name a = "momentum") ->
      (AttributeProto.type a <> AttributeType_FLOAT \/ AttributeProto.has_f a = false) ->
      parseAttributes proto n = ERROR ("Bad attribute " +:+ AttributeProto.name a)) /\
     (AttributeProto.name a = "spatial" ->
      forall v : Z, parse_attribute_int a = Ok v -> v <> 1 ->
      parseAttributes proto n
      = ERROR "non-default value for 'spatial' attribute not implemented") /\
     (AttributeProto.name a ∉ ["epsilon"; "momentum"; "spatial"] ->
      parseAttributes proto n = ERROR ("Unknown attribute " +:+ AttributeProto.name a))).
Proof.
  unfold parseAttributes. split.
  - generalize (NodeProto.attribute proto) as l. intros l. revert n.
    induction l as [| a l IH]; intros n n' H; [constructor |].
    cbn [parseAttributes_loop] in H. apply bind_Ok in H as (n1 & Ha & H).
    constructor; [| by eapply IH].
    apply parseAttributes_body_Ok in Ha as [([-> | ->] & _) | (-> & _)];
      rewrite !elem_of_cons; auto.
  - intros pre post a n1 -> Hpre.
    rewrite parseAttributes_loop_app, Hpre. cbn [bind parseAttributes_loop].
    unfold parseAttributes_body, parseAttribute_epsilon, parseAttribute_momentum.
    split; [| split].
    + intros Hname Hbad.
      assert (Hbody : forall k : node -> node,
        (if decide (AttributeProto.type a <> AttributeType_FLOAT)
         then ERROR ("Bad attribute " +:+ AttributeProto.name a)
         else if decide (AttributeProto.has_f a = false)
              then ERROR ("Bad attribute " +:+ AttributeProto.name a)
              else Ok (k n1))
        = ERROR ("Bad attribute " +:+ AttributeProto.name a)).
      { intros k. destruct (decide _) as [| Hty]; [done |].
        destruct (decide _) as [| Hf]; [done |].
        apply dec_stable in Hty. destruct Hbad; done. }
      destruct Hname as [Hname | Hname]; rewrite Hname in *.
      * rewrite decide_True by done.
        by rewrite (Hbody (BatchNormalization.set_epsilon (AttributeProto.f a))).
      * rewrite decide_False, decide_True by done.
        by rewrite (Hbody (BatchNormalization.set_momentum (AttributeProto.f a))).
    + intros Hname v Hv Hne. rewrite Hname.
      rewrite decide_False, decide_False, decide_True by done.
      rewrite Hv. cbn [bind]. by rewrite decide_True.
    + intros Hname. rewrite !elem_of_cons, elem_of_nil in Hname.
      rewrite !decide_False by tauto. done.
Qed.


(** * Further properties of the node *)

(** ** Attribute parsing *)

Lemma parseAttributes_body_result (a : AttributeProto.t) (n n' : node) :
  parseAttributes_body a n = Ok n' ->
  n' = BatchNormalization.set_momentum
         (last_f "momentum" [a] (BatchNormalization.momentum n))
         (BatchNormalization.set_epsilon
            (last_f "epsilon" [a] (BatchNormalization.epsilon n)) n).
Proof.
  unfold parseAttributes_body, parseAttribute_epsilon, parseAttribute_momentum, last_f.
  cbn [foldl]. intros H. destruct n.
  destruct (decide (AttributeProto.name a = "epsilon")) as [He | He].
  - rewrite (decide_False (P := AttributeProto.name a = "momentum")) by congruence.
    repeat (destruct (decide _) as [? | ?] in H; try discriminate H).
    by injection H as <-.
  - destruct (decide (AttributeProto.name a = "momentum")) as [Hm | Hm].
    + repeat (destruct (decide _) as [? | ?] in H; try discriminate H).
      by injection H as <-.
    + destruct (decide _) as [? | ?] in H; [| discriminate H].
      destruct (parse_attribute_int a) as [v | |]; try discriminate H.
      cbn [bind] in H. destruct (decide _) in H; [discriminate H |].
      by injection H as <-.
Qed.

Lemma parseAttributes_loop_result (l : list AttributeProto.t) :
  forall n n' : node,
    parseAttributes_loop l n = Ok n' ->
    n' = BatchNormalization.set_momentum
           (last_f "momentum" l (BatchNormalization.momentum n))
           (BatchNormalization.set_epsilon
              (last_f "epsilon" l (BatchNormalization.epsilon n)) n).
Proof.
  induction l as [| a l IH]; intros n n' H; cbn [parseAttributes_loop] in H.
  - injection H as <-. by destruct n.
  - apply bind_Ok in H as (n1 & Ha & H).
    apply IH in H. apply parseAttributes_body_result in Ha.
    rewrite H, Ha. unfold last_f. cbn [foldl]. by destruct n.
Qed.

(** X1. When attribute parsing succeeds, the node it returns is the node it
    was given with [epsilon] set to the value of the last record named
    epsilon and [momentum] to the value of the last record named momentum
    (each kept when there is no such record); no other member changes. *)
Theorem parseAttributes_result (proto : NodeProto.t) (n n' : node) :
  parseAttributes proto n = Ok n' ->
  n' = BatchNormalization.set_momentum
         (last_f "momentum" (NodeProto.attribute proto) (BatchNormalization.momentum n))
         (BatchNormalization.set_epsilon
            (last_f "epsilon" (NodeProto.attribute proto) (BatchNormalization.epsilon n))
            n).
Proof.
  unfold parseAttributes. intros H.
  exact (parseAttributes_loop_result (NodeProto.attribute proto) n n' H).
Qed.

Lemma parseAttributes_body_accepts (a : AttributeProto.t) (n : node) :
  ((AttributeProto.name a = "epsilon" \/ AttributeProto.name a = "momentum") /\
   AttributeProto.type a = AttributeType_FLOAT /\ AttributeProto.has_f a = true) \/
  (AttributeProto.name a = "spatial" /\ parse_attribute_int a = Ok 1) ->
  exists n', parseAttributes_body a n = Ok n'.
Proof.
  unfold parseAttributes_body, parseAttribute_epsilon, parseAttribute_momentum.
  intros [([Hn | Hn] & Hty & Hf) | (Hn & Hv)]; rewrite Hn.
  - rewrite decide_True by done.
    rewrite decide_False by (intros Hne; by apply Hne).
    rewrite decide_False by (by rewrite Hf). eauto.
  - rewrite decide_False, decide_True by done.
    rewrite decide_False by (intros Hne; by apply Hne).
    rewrite decide_False by (by rewrite Hf). eauto.
  - rewrite decide_False, decide_False, decide_True by done.
    rewrite Hv. cbn [bind]. rewrite decide_False by (intros Hne; by apply Hne). eauto.
Qed.

(** X2. Attribute parsing succeeds exactly when every record, taken alone,
    is acceptable: an epsilon or momentum record of type FLOAT that carries
    a value, or a spatial record that decodes to 1. Acceptance depends
    neither on the node nor on the order of the records. *)
Theorem parseAttributes_succeeds_iff (proto : NodeProto.t) (n : node) :
  (exists n', parseAttributes proto n = Ok n') <->
  Forall (fun a =>
            ((AttributeProto.name a = "epsilon" \/ AttributeProto.name a = "momentum") /\
             AttributeProto.type a = AttributeType_FLOAT /\
             AttributeProto.has_f a = true) \/
            (AttributeProto.name a = "spatial" /\ parse_attribute_int a = Ok 1))
         (NodeProto.attribute proto).
Proof.
  unfold parseAttributes. generalize (NodeProto.attribute proto) as l. intros l.
  revert n. induction l as [| a l IH]; intros n; cbn [parseAttributes_loop].
  - split; [constructor | eauto].
  - split.
    + intros (n' & H). apply bind_Ok in H as (n1 & Ha & H).
      constructor; [by eapply parseAttributes_body_Ok |].
      apply (IH n1). eauto.
    + intros H. apply Forall_cons in H as [Ha Hl].
      destruct (parseAttributes_body_accepts a n Ha) as (n1 & ->). cbn [bind].
      by apply IH.
Qed.

(** ** The scan of [isSplatted] *)

Lemma isSplatted_loop_false (b : list float) (value : float) (k : nat) :
  forall i : nat,
    isSplatted_loop b value k i = Ok false <->
    exists (j : nat) (y : float),
      (i <= j < i + k)%nat /\ b !! j = Some y /\ float_neq y value = true.
Proof.
  induction k as [| k IH]; intros i; cbn [isSplatted_loop].
  - split; [discriminate | intros (j & y & Hj & _); lia].
  - unfold index. destruct (b !! i) as [x |] eqn:Hx; cbn [bind].
    + destruct (float_neq x value) eqn:Hneq.
      * split; [intros _; exists i, x; split; [lia | done] | done].
      * rewrite IH. split.
        -- intros (j & y & Hj & Hy). exists j, y. split; [lia | done].
        -- intros (j & y & Hj & Hy & Hne). exists j, y.
           split; [| done]. destruct (decide (j = i)) as [-> | ?]; [congruence | lia].
    + split; [discriminate |]. intros (j & y & Hj & Hy & _).
      apply lookup_ge_None in Hx. apply lookup_lt_Some in Hy. lia.
Qed.

Lemma isSplatted_loop_overrun (b : list float) (value : float) (k : nat) :
  forall (i : nat) (u : undefined_behaviour),
    (i <= length b)%nat ->
    isSplatted_loop b value k i = Undefined u <->
    u = OutOfBounds /\ (length b < i + k)%nat /\
    forall (j : nat) (y : float),
      (i <= j)%nat -> b !! j = Some y -> float_neq y value = false.
Proof.
  induction k as [| k IH]; intros i u Hi; cbn [isSplatted_loop].
  - split; [discriminate | intros (_ & ? & _); lia].
  - unfold index. destruct (b !! i) as [x |] eqn:Hx; cbn [bind].
    + pose proof (lookup_lt_Some _ _ _ Hx) as Hlt.
      destruct (float_neq x value) eqn:Hneq.
      * split; [discriminate |]. intros (_ & _ & Hall).
        rewrite (Hall i x) in Hneq by (done || lia). discriminate.
      * rewrite IH by lia. split.
        -- intros (-> & Hlen & Hall). split; [done |]. split; [lia |].
           intros j y Hj Hy. destruct (decide (j = i)) as [-> | ?]; [congruence |].
           apply (Hall j); [lia | done].
        -- intros (-> & Hlen & Hall). split; [done |]. split; [lia |].
           intros j y Hj Hy. apply (Hall j); [lia | done].
    + apply lookup_ge_None in Hx. split.
      * intros [= <-]. split; [done |]. split; [lia |].
        intros j y Hj Hy. apply lookup_lt_Some in Hy. lia.
      * by intros (-> & _).
Qed.

(** X3. The three outcomes of [isSplatted] on a constant single-precision
    tensor, read off the scan. It answers false exactly when one of the
    first [data_num_elem] slots is stored and differs from the value; it
    answers true exactly when all of these slots are stored and none
    differs; and it reads past the end of the buffer exactly when the
    buffer is shorter than [data_num_elem] and no stored element differs. *)
Theorem isSplatted_outcomes (st : store) (p : ptr) (x : Tensor.t) (value : float) :
  st !! p = Some x ->
  Tensor.data_type x = FLOAT ->
  Tensor.isConst x = true ->
  (isSplatted st (Some p) value = Ok false <->
   exists (j : nat) (y : float),
     (j < Z.to_nat (data_num_elem x))%nat /\
     Tensor.data_buffer x !! j = Some y /\ float_neq y value = true) /\
  (isSplatted st (Some p) value = Ok true <->
   (Z.to_nat (data_num_elem x) <= length (Tensor.data_buffer x))%nat /\
   forall (j : nat) (y : float),
     (j < Z.to_nat (data_num_elem x))%nat ->
     Tensor.data_buffer x !! j = Some y -> float_neq y value = false) /\
  (isSplatted st (Some p) value = Undefined OutOfBounds <->
   (length (Tensor.data_buffer x) < Z.to_nat (data_num_elem x))%nat /\
   forall y : float, y ∈ Tensor.data_buffer x -> float_neq y value = false).
Proof.
  intros Hx Hty Hc. rewrite (isSplatted_const _ _ _ _ Hx Hty Hc).
  split; [| split].
  - rewrite isSplatted_loop_false. split.
    + intros (j & y & Hj & Hy). exists j, y. split; [lia | done].
    + intros (j & y & Hj & Hy). exists j, y. split; [lia | done].
  - rewrite isSplatted_loop_true. split.
    + intros H. split.
      * destruct (Z.to_nat (data_num_elem x)) as [| k] eqn:Hk; [lia |].
        destruct (H k) as (y & Hy & _); [lia |].
        apply lookup_lt_Some in Hy. lia.
      * intros j y Hj Hy. destruct (H j) as (y' & Hy' & Hneq); [lia |]. congruence.
    + intros (Hlen & Hall) j Hj.
      destruct (lookup_lt_is_Some_2 (Tensor.data_buffer x) j) as [y Hy]; [lia |].
      exists y. split; [done |]. apply (Hall j); [lia | done].
  - rewrite isSplatted_loop_overrun by lia. split.
    + intros (_ & Hlen & Hall). split; [lia |].
      intros y (j & Hy)%list_elem_of_lookup. apply (Hall j); [lia | done].
    + intros (Hlen & Hall). split; [done |]. split; [lia |].
      intros j y _ Hy. apply Hall. apply list_elem_of_lookup. eauto.
Qed.

Lemma data_num_elem_zero (x : Tensor.t) :
  0 ∈ Tensor.data_dim x -> data_num_elem x = 0.
Proof.
  unfold data_num_elem. induction (Tensor.data_dim x) as [| d l IH]; cbn [foldr].
  - by intros ?%elem_of_nil.
  - intros [<- | Hl]%elem_of_cons; [done |]. rewrite IH by done. lia.
Qed.

(** X4. A constant single-precision tensor with an extent of zero is
    splatted to every value, whatever its buffer holds: the scan runs no
    iteration and reads nothing. *)
Theorem isSplatted_no_element (st : store) (p : ptr) (x : Tensor.t) (value : float) :
  st !! p = Some x ->
  Tensor.data_type x = FLOAT ->
  Tensor.isConst x = true ->
  0 ∈ Tensor.data_dim x ->
  isSplatted st (Some p) value = Ok true.
Proof.
  intros Hx Hty Hc H0. rewrite (isSplatted_const _ _ _ _ Hx Hty Hc).
  by rewrite (data_num_elem_zero _ H0).
Qed.

Lemma float_neq_nan (y : float) : float_neq y S754_nan = true.
Proof. by destruct y. Qed.

Lemma float_neq_zeros (s1 s2 : bool) :
  float_neq (S754_zero s1) (S754_zero s2) = false.
Proof. done. Qed.

(** X5. The comparison of the scan is the IEEE one. Against NaN every
    element differs, so a constant single-precision tensor that stores at
    least one of its elements is never splatted to NaN; and zeros of either
    sign do not differ from [0.0f], so a well-formed constant buffer of
    negative zeros is splatted to [0.0f]. *)
Theorem isSplatted_ieee (st : store) (p : ptr) (x : Tensor.t) :
  st !! p = Some x ->
  Tensor.data_type x = FLOAT ->
  Tensor.isConst x = true ->
  ((0 < data_num_elem x) -> Tensor.data_buffer x <> [] ->
   isSplatted st (Some p) S754_nan = Ok false) /\
  (well_formed x ->
   (forall y, y ∈ Tensor.data_buffer x -> exists s, y = S754_zero s) ->
   isSplatted st (Some p) float_0_0 = Ok true).
Proof.
  intros Hx Hty Hc. split.
  - intros Hn Hb. rewrite (isSplatted_const _ _ _ _ Hx Hty Hc).
    apply isSplatted_loop_false.
    destruct (Tensor.data_buffer x) as [| y b]; [done |].
    exists 0%nat, y. split; [lia |]. split; [done | apply float_neq_nan].
  - intros Hwf Hzero. rewrite (isSplatted_well_formed _ _ _ _ Hx Hty Hwf), Hc.
    f_equal. apply forallb_forall. intros y Hy%list_elem_of_In.
    destruct (Hzero y Hy) as [s ->]. done.
Qed.

(** ** The fold of [calculateSqrtVarOffline] *)

Lemma calculateSqrtVarOffline_loop_closed (eps : float) (k : nat) :
  forall (i : nat) (v : list float),
    (i + k <= length v)%nat ->
    calculateSqrtVarOffline_loop eps k i v
    = Ok (take i v ++ folded eps k (drop i v)).
Proof.
  unfold folded.
  induction k as [| k IH]; intros i v Hlen; cbn [calculateSqrtVarOffline_loop].
  - rewrite take_0, fmap_nil, drop_0, app_nil_l. by rewrite take_drop.
  - destruct (index_lt v i) as (x & Hx & ->); [lia |]. cbn [bind].
    rewrite IH by (rewrite length_insert; lia). f_equal.
    rewrite (take_S_r (<[i:=float_sqrt (float_add x eps)]> v) i
               (float_sqrt (float_add x eps)))
      by (apply list_lookup_insert_eq; lia).
    rewrite take_insert_ge by lia.
    rewrite !drop_insert_lt by lia.
    rewrite (drop_S v x i Hx), firstn_cons, fmap_cons, skipn_cons.
    by rewrite <- !app_assoc.
Qed.

Lemma calculateSqrtVarOffline_loop_overrun (eps : float) (k : nat) :
  forall (i : nat) (v : list float),
    (i <= length v < i + k)%nat ->
    calculateSqrtVarOffline_loop eps k i v = Undefined OutOfBounds.
Proof.
  induction k as [| k IH]; intros i v Hlen; cbn [calculateSqrtVarOffline_loop]; [lia |].
  destruct (decide (i = length v)) as [-> | Hne].
  - by rewrite index_ge.
  - destruct (index_lt v i) as (x & Hx & ->); [lia |]. cbn [bind].
    apply IH. rewrite length_insert. lia.
Qed.

(** X6. [calculateSqrtVarOffline] on a single-precision variance tensor:
    when the buffer is shorter than [data_num_elem] it writes what it can
    and then reads past the end; otherwise it stores back the buffer with
    its first [data_num_elem] elements replaced by [sqrt(v + epsilon)] and
    the elements after them as they were, and changes nothing else in the
    store. It does so whether or not the tensor is constant. *)
Theorem calculateSqrtVarOffline_spec (n : node) (st : store) (p : ptr) (x : Tensor.t) :
  BatchNormalization.var n = Some p ->
  st !! p = Some x ->
  Tensor.data_type x = FLOAT ->
  ((length (Tensor.data_buffer x) < Z.to_nat (data_num_elem x))%nat ->
   calculateSqrtVarOffline n st = Undefined OutOfBounds) /\
  ((Z.to_nat (data_num_elem x) <= length (Tensor.data_buffer x))%nat ->
   calculateSqrtVarOffline n st
   = Ok (<[p := Tensor.with_data_buffer
                  (folded (BatchNormalization.epsilon n)
                     (Z.to_nat (data_num_elem x)) (Tensor.data_buffer x)) x]> st)).
Proof.
  intros Hvar Hx Hty. unfold calculateSqrtVarOffline, deref, as_float_array.
  rewrite Hvar, Hx. cbn [bind].
  split; intros Hlen.
  - by rewrite calculateSqrtVarOffline_loop_overrun by lia.
  - by rewrite calculateSqrtVarOffline_loop_closed by (simpl; lia).
Qed.

(** ** What resolution keeps and what it changes *)

Lemma resolve_Ok_store (n n' : node) (st st' : store) :
  resolve n st = Ok (n', st') ->
  exists (p0 p4 : ptr) (t0 t4 : Tensor.t),
    BatchNormalization.inputs n !! 0%nat = Some p0 /\
    BatchNormalization.inputs n !! 4%nat = Some p4 /\
    st !! p0 = Some t0 /\ st !! p4 = Some t4 /\
    st' = (if Tensor.isConst t4
           then <[p4 := Tensor.with_data_buffer
                          (folded (BatchNormalization.epsilon n)
                             (Z.to_nat (data_num_elem t4)) (Tensor.data_buffer t4)) t4]> st
           else st)
          ++ [Tensor.mk (Tensor.data_dim t0) (Tensor.data_type t0) false []] /\
    (Tensor.isConst t4 = true ->
     (Z.to_nat (data_num_elem t4) <= length (Tensor.data_buffer t4))%nat).
Proof.
  intros H. apply resolve_Ok_inv in H
    as (p0 & p1 & p2 & p3 & p4 & t0 & t1 & t2 & t3 & t4 & s1 & s0 & stf
        & Hin & (H0 & _ & _ & _ & H4) & _ & _ & _ & Hstf & -> & _).
  exists p0, p4, t0, t4. rewrite Hin. do 4 (split; [done |]).
  destruct (Tensor.isConst t4); [| by subst].
  destruct Hstf as (v' & Hloop & ->).
  assert (Hlen : (Z.to_nat (data_num_elem t4) <= length (Tensor.data_buffer t4))%nat).
  { destruct (decide (Z.to_nat (data_num_elem t4)
                      <= length (Tensor.data_buffer t4))%nat) as [| Hgt]; [done |].
    rewrite calculateSqrtVarOffline_loop_overrun in Hloop by lia. discriminate. }
  rewrite calculateSqrtVarOffline_loop_closed in Hloop by (simpl; lia).
  injection Hloop as <-. done.
Qed.

(** X7. What a successful resolution does to the store: it appends exactly
    one tensor, and every tensor that was there keeps its shape, element
    type and constness; every tensor other than the variance operand is
    left as it was, buffer included. *)
Theorem resolve_store_frame (n n' : node) (st st' : store) :
  resolve n st = Ok (n', st') ->
  length st' = S (length st) /\
  forall (p : ptr) (x : Tensor.t),
    st !! p = Some x ->
    exists x',
      st' !! p = Some x' /\
      Tensor.data_dim x' = Tensor.data_dim x /\
      Tensor.data_type x' = Tensor.data_type x /\
      Tensor.isConst x' = Tensor.isConst x /\
      (BatchNormalization.inputs n !! 4%nat <> Some p -> x' = x).
Proof.
  intros H. apply resolve_Ok_store in H
    as (p0 & p4 & t0 & t4 & _ & Hp4 & _ & H4 & -> & _).
  split.
  - rewrite length_app. cbn [length].
    destruct (Tensor.isConst t4); rewrite ?length_insert; lia.
  - intros p x Hx. pose proof (lookup_lt_Some _ _ _ Hx) as Hlt.
    destruct (Tensor.isConst t4).
    + rewrite lookup_app_l by (by rewrite length_insert).
      destruct (decide (p4 = p)) as [-> | Hne].
      * rewrite list_lookup_insert_eq by done.
        assert (x = t4) as -> by congruence.
        eexists. split; [done |]. do 3 (split; [done |]). by rewrite Hp4.
      * rewrite list_lookup_insert_ne by done. by exists x.
    + rewrite lookup_app_l by done. by exists x.
Qed.

(** X8. What a successful resolution does to the node: the operand list,
    [epsilon] and [momentum] are kept; [input], [mean] and [var] are the
    operands 0, 3 and 4; [scale] and [bias] are the operands 1 and 2 or
    null; the five operands are registered, after what was registered
    before, in the order and under the names X, scale, bias, mean, var; and
    the output handle is the address that was free. *)
Theorem resolve_binds_operands (n n' : node) (st st' : store) :
  resolve n st = Ok (n', st') ->
  BatchNormalization.inputs n' = BatchNormalization.inputs n /\
  BatchNormalization.epsilon n' = BatchNormalization.epsilon n /\
  BatchNormalization.momentum n' = BatchNormalization.momentum n /\
  BatchNormalization.input n' = BatchNormalization.inputs n !! 0%nat /\
  BatchNormalization.mean n' = BatchNormalization.inputs n !! 3%nat /\
  BatchNormalization.var n' = BatchNormalization.inputs n !! 4%nat /\
  (BatchNormalization.scale n' = BatchNormalization.inputs n !! 1%nat \/
   BatchNormalization.scale n' = None) /\
  (BatchNormalization.bias n' = BatchNormalization.inputs n !! 2%nat \/
   BatchNormalization.bias n' = None) /\
  BatchNormalization.input_params n'
  = BatchNormalization.input_params n
    ++ zip (BatchNormalization.inputs n) ["X"; "scale"; "bias"; "mean"; "var"] /\
  BatchNormalization.output n' = Some (length st).
Proof.
  intros H. apply resolve_Ok_inv in H
    as (p0 & p1 & p2 & p3 & p4 & t0 & t1 & t2 & t3 & t4 & s1 & s0 & stf
        & Hin & _ & _ & _ & _ & _ & _ & ->).
  rewrite Hin. cbn [BatchNormalization.inputs BatchNormalization.epsilon
    BatchNormalization.momentum BatchNormalization.input BatchNormalization.mean
    BatchNormalization.var BatchNormalization.scale BatchNormalization.bias
    BatchNormalization.input_params BatchNormalization.output bound].
  repeat split; try done.
  - destruct s1; auto.
  - destruct s0; auto.
  - by rewrite <- !app_assoc.
Qed.

Lemma isSplatted_true_inv (st : store) (p : ptr) (x : Tensor.t) (value : float) :
  st !! p = Some x -> isSplatted st (Some p) value = Ok true ->
  Tensor.data_type x = FLOAT /\ Tensor.isConst x = true /\
  forall j : nat, (j < Z.to_nat (data_num_elem x))%nat ->
    exists y, Tensor.data_buffer x !! j = Some y /\ float_neq y value = false.
Proof.
  intros Hx H. pose proof (isSplatted_Ok_FLOAT _ _ _ _ _ Hx H) as Hty.
  destruct (Tensor.isConst x) eqn:Hc.
  - rewrite (isSplatted_const _ _ _ _ Hx Hty Hc) in H.
    split; [done |]. split; [done |]. intros j Hj.
    apply (proj1 (isSplatted_loop_true _ _ _ 0%nat) H). lia.
  - rewrite (isSplatted_not_const _ _ _ _ Hx Hty Hc) in H. discriminate.
Qed.

(** X9. Resolution never drops a factor or a term that matters: when it
    leaves [scale] null, the scale operand is a constant single-precision
    tensor whose [data_num_elem] elements all compare equal to [1.0f], and
    when it leaves [bias] null, the bias operand is one whose elements all
    compare equal to [0.0f]. *)
Theorem resolve_elision_sound (n n' : node) (st st' : store) :
  resolve n st = Ok (n', st') ->
  (BatchNormalization.scale n' = None ->
   exists (ps : ptr) (ts : Tensor.t),
     BatchNormalization.inputs n !! 1%nat = Some ps /\ st !! ps = Some ts /\
     Tensor.data_type ts = FLOAT /\ Tensor.isConst ts = true /\
     forall j : nat, (j < Z.to_nat (data_num_elem ts))%nat ->
       exists y, Tensor.data_buffer ts !! j = Some y /\ float_neq y float_1_0 = false) /\
  (BatchNormalization.bias n' = None ->
   exists (pb : ptr) (tb : Tensor.t),
     BatchNormalization.inputs n !! 2%nat = Some pb /\ st !! pb = Some tb /\
     Tensor.data_type tb = FLOAT /\ Tensor.isConst tb = true /\
     forall j : nat, (j < Z.to_nat (data_num_elem tb))%nat ->
       exists y, Tensor.data_buffer tb !! j = Some y /\ float_neq y float_0_0 = false).
Proof.
  intros H. apply resolve_Ok_inv in H
    as (p0 & p1 & p2 & p3 & p4 & t0 & t1 & t2 & t3 & t4 & s1 & s0 & stf
        & Hin & (_ & H1 & H2 & _) & _ & Hs1 & Hs0 & _ & _ & ->).
  rewrite Hin. cbn [BatchNormalization.scale BatchNormalization.bias].
  split; intros Hnull.
  - destruct s1; [| discriminate]. exists p1, t1.
    split; [done |]. split; [done |]. by apply isSplatted_true_inv with st p1.
  - destruct s0; [| discriminate]. exists p2, t2.
    split; [done |]. split; [done |]. by apply isSplatted_true_inv with st p2.
Qed.

Lemma folded_lookup_lt (eps : float) (k : nat) (b : list float) (j : nat) (x : float) :
  (j < k)%nat -> b !! j = Some x ->
  folded eps k b !! j = Some (float_sqrt (float_add x eps)).
Proof.
  intros Hj Hx. unfold folded. pose proof (lookup_lt_Some _ _ _ Hx) as Hlt.
  rewrite lookup_app_l by (rewrite length_fmap, length_take; lia).
  by rewrite list_lookup_fmap, lookup_take_lt, Hx by done.
Qed.

Lemma folded_length (eps : float) (k : nat) (b : list float) :
  length (folded eps k b) = length b.
Proof.
  unfold folded. rewrite length_app, length_fmap, length_take, length_drop. lia.
Qed.

(** X10. The fold is destructive and is not guarded against sharing: when
    two nodes that consume the same constant single-precision variance
    tensor are resolved one after the other, the second resolution folds
    the values the first one left, so that each element ends as
    [sqrt(sqrt(v + epsilon1) + epsilon2)]. *)
Theorem resolve_shared_variance (n1 n1' n2 n2' : node) (st st1 st2 : store)
    (pv : ptr) (tv : Tensor.t) :
  resolve n1 st = Ok (n1', st1) ->
  resolve n2 st1 = Ok (n2', st2) ->
  BatchNormalization.inputs n1 !! 4%nat = Some pv ->
  BatchNormalization.inputs n2 !! 4%nat = Some pv ->
  st !! pv = Some tv ->
  Tensor.isConst tv = true ->
  Tensor.data_type tv = FLOAT ->
  exists tv2,
    st2 !! pv = Some tv2 /\
    Tensor.data_buffer tv2
    = folded (BatchNormalization.epsilon n2) (Z.to_nat (data_num_elem tv))
        (folded (BatchNormalization.epsilon n1) (Z.to_nat (data_num_elem tv))
           (Tensor.data_buffer tv)) /\
    forall j : nat, (j < Z.to_nat (data_num_elem tv))%nat ->
      exists x,
        Tensor.data_buffer tv !! j = Some x /\
        Tensor.data_buffer tv2 !! j
        = Some (float_sqrt
                  (float_add
                     (float_sqrt (float_add x (BatchNormalization.epsilon n1)))
                     (BatchNormalization.epsilon n2))).
Proof.
  intros H1 H2 Hp1 Hp2 Htv Hc _.
  apply resolve_Ok_store in H1
    as (p0 & p4 & t0 & t4 & _ & Hp4 & _ & H4 & -> & Hfit).
  assert (p4 = pv) as -> by congruence. assert (t4 = tv) as -> by congruence.
  rewrite Hc in *. pose proof (Hfit eq_refl) as Hlen.
  pose proof (lookup_lt_Some _ _ _ Htv) as Hlt.
  set (k := Z.to_nat (data_num_elem tv)) in *.
  set (tv1 := Tensor.with_data_buffer
                (folded (BatchNormalization.epsilon n1) k (Tensor.data_buffer tv)) tv) in *.
  apply resolve_Ok_store in H2
    as (q0 & q4 & u0 & u4 & _ & Hq4 & _ & Hu4 & -> & _).
  assert (q4 = pv) as -> by congruence.
  rewrite lookup_app_l in Hu4 by (by rewrite length_insert).
  rewrite list_lookup_insert_eq in Hu4 by done. injection Hu4 as <-.
  cbn [tv1 Tensor.isConst Tensor.with_data_buffer]. rewrite Hc.
  eexists. split.
  - rewrite lookup_app_l by (rewrite length_insert, length_app, length_insert; lia).
    apply list_lookup_insert_eq. rewrite length_app, length_insert. lia.
  - cbn [Tensor.data_buffer Tensor.with_data_buffer tv1].
    change (Z.to_nat (data_num_elem
              (Tensor.mk (Tensor.data_dim tv) (Tensor.data_type tv) true
                 (folded (BatchNormalization.epsilon n1) k (Tensor.data_buffer tv)))))
      with k.
    split; [done |]. intros j Hj.
    destruct (lookup_lt_is_Some_2 (Tensor.data_buffer tv) j) as [x Hx]; [lia |].
    exists x. split; [done |].
    apply folded_lookup_lt; [done |]. by apply folded_lookup_lt.
Qed.

(** X11. When resolution succeeds, exactly: there are five operands, each
    names a tensor of the store with a plain floating-point element type,
    scale and bias are single-precision and their scans return, and the
    storage of a constant variance, whatever its element type, has at
    least [data_num_elem] float-sized slots. *)
Theorem resolve_succeeds_iff (n : node) (st : store) :
  (exists (n' : node) (st' : store), resolve n st = Ok (n', st')) <->
  exists (p0 p1 p2 p3 p4 : ptr) (t0 t1 t2 t3 t4 : Tensor.t),
    BatchNormalization.inputs n = [p0; p1; p2; p3; p4] /\
    (st !! p0 = Some t0 /\ st !! p1 = Some t1 /\ st !! p2 = Some t2 /\
     st !! p3 = Some t3 /\ st !! p4 = Some t4) /\
    (typeConstraint_plainFloatingPoints t0 = true /\
     typeConstraint_plainFloatingPoints t3 = true /\
     typeConstraint_plainFloatingPoints t4 = true) /\
    (Tensor.data_type t1 = FLOAT /\
     exists s1, isSplatted st (Some p1) float_1_0 = Ok s1) /\
    (Tensor.data_type t2 = FLOAT /\
     exists s0, isSplatted st (Some p2) float_0_0 = Ok s0) /\
    (Tensor.isConst t4 = true ->
     (Z.to_nat (data_num_elem t4) <= length (Tensor.data_buffer t4))%nat).
Proof.
  split.
  - intros (n' & st' & H). pose proof H as Hstore.
    apply resolve_Ok_store in Hstore
      as (q0 & q4 & u0 & u4 & _ & Hq4 & _ & Hu4 & _ & Hfit).
    apply resolve_Ok_inv in H
      as (p0 & p1 & p2 & p3 & p4 & t0 & t1 & t2 & t3 & t4 & s1 & s0 & stf
          & Hin & (H0 & H1 & H2 & H3 & H4) & (Hc0 & Hc1 & Hc2 & Hc3 & Hc4)
          & Hs1 & Hs0 & _).
    rewrite Hin in Hq4. injection Hq4 as <-. assert (u4 = t4) as -> by congruence.
    exists p0, p1, p2, p3, p4, t0, t1, t2, t3, t4.
    do 3 (split; [done |]).
    split; [split; [by eapply isSplatted_Ok_FLOAT | eauto] |].
    split; [split; [by eapply isSplatted_Ok_FLOAT | eauto] | done].
  - intros (p0 & p1 & p2 & p3 & p4 & t0 & t1 & t2 & t3 & t4 & Hin
            & (H0 & H1 & H2 & H3 & H4) & (Hc0 & Hc3 & Hc4)
            & (Hty1 & s1 & Hs1) & (Hty2 & s0 & Hs0) & Hfit).
    assert (Hc : forall t, Tensor.data_type t = FLOAT ->
                           typeConstraint_plainFloatingPoints t = true).
    { intros t Ht. unfold typeConstraint_plainFloatingPoints. by rewrite Ht. }
    destruct (resolve_checks_pass n st p0 p1 p2 p3 p4 t0 t1 t2 t3 t4 s1
                Hin H0 H1 H2 H3 H4 Hc0 (Hc _ Hty1) (Hc _ Hty2) Hc3 Hc4)
      as (_ & _ & Hok).
    by apply (Hok s0).
Qed.

(** X12. "Unimplemented" has one cause: resolution gives it only when five
    operands are in the store, all of a plain floating-point element type,
    and the scale or the bias operand is not single-precision. *)
Theorem resolve_Unimplemented_inv (n : node) (st : store) :
  resolve n st = ERROR "Unimplemented" ->
  exists (p0 p1 p2 p3 p4 : ptr) (t0 t1 t2 t3 t4 : Tensor.t),
    BatchNormalization.inputs n = [p0; p1; p2; p3; p4] /\
    (st !! p0 = Some t0 /\ st !! p1 = Some t1 /\ st !! p2 = Some t2 /\
     st !! p3 = Some t3 /\ st !! p4 = Some t4) /\
    (typeConstraint_plainFloatingPoints t0 = true /\
     typeConstraint_plainFloatingPoints t1 = true /\
     typeConstraint_plainFloatingPoints t2 = true /\
     typeConstraint_plainFloatingPoints t3 = true /\
     typeConstraint_plainFloatingPoints t4 = true) /\
    (Tensor.data_type t1 <> FLOAT \/ Tensor.data_type t2 <> FLOAT).
Proof.
  unfold resolve. intros H.
  destruct (decide _) as [Hlen | Hlen]; [discriminate |].
  apply dec_stable in Hlen.
  destruct (BatchNormalization.inputs n) as [| p0 [| p1 [| p2 [| p3 [| p4 [| ? ?]]]]]] eqn:Hin;
    try discriminate Hlen.
  clear Hlen. cbn [index lookup list_lookup bind] in H.
  change (register_input p4 _ _) with (bound n p0 p1 p2 p3 p4) in H.
  cbn [bound BatchNormalization.input BatchNormalization.scale BatchNormalization.bias
       BatchNormalization.mean BatchNormalization.var] in H.
  apply bind_ERROR in H
    as [(? & _)%check_plainFloatingPoints_ERROR
       | (? & (t0 & H0 & Hc0)%check_plainFloatingPoints_Ok & H)]; [discriminate |].
  apply bind_ERROR in H
    as [(? & _)%check_plainFloatingPoints_ERROR
       | (? & (t1 & H1 & Hc1)%check_plainFloatingPoints_Ok & H)]; [discriminate |].
  apply bind_ERROR in H
    as [(? & _)%check_plainFloatingPoints_ERROR
       | (? & (t2 & H2 & Hc2)%check_plainFloatingPoints_Ok & H)]; [discriminate |].
  apply bind_ERROR in H
    as [(? & _)%check_plainFloatingPoints_ERROR
       | (? & (t3 & H3 & Hc3)%check_plainFloatingPoints_Ok & H)]; [discriminate |].
  apply bind_ERROR in H
    as [(? & _)%check_plainFloatingPoints_ERROR
       | (? & (t4 & H4 & Hc4)%check_plainFloatingPoints_Ok & H)]; [discriminate |].
  exists p0, p1, p2, p3, p4, t0, t1, t2, t3, t4.
  do 3 (split; [done |]).
  apply bind_ERROR in H as [(_ & y & Hy & Hty)%isSplatted_ERROR | (s1 & _ & H)].
  { left. congruence. }
  assert (Hbias : forall m, BatchNormalization.bias
            (if s1 then BatchNormalization.set_scale None m else m)
            = BatchNormalization.bias m) by (intros m; by destruct s1).
  rewrite Hbias in H. cbn [bound BatchNormalization.bias] in H.
  apply bind_ERROR in H as [(_ & y & Hy & Hty)%isSplatted_ERROR | (s0 & _ & H)].
  { right. congruence. }
  exfalso.
  apply bind_ERROR in H as [H | (v & _ & H)].
  { destruct s0, s1; cbn [BatchNormalization.var BatchNormalization.set_bias
      BatchNormalization.set_scale bound follow] in H; unfold deref in H;
      by destruct (st !! p4). }
  apply bind_ERROR in H as [H | (folded_state & _ & H)].
  - destruct (Tensor.isConst v); [| discriminate].
    apply bind_ERROR in H as [H | (? & _ & H)]; [| discriminate].
    by apply calculateSqrtVarOffline_not_ERROR in H.
  - by apply allocate_output_not_ERROR in H.
Qed.

(** ** Emission: what it needs and what it reads *)

Lemma print_rank_ge_2 (n : node) (st : store) (X : Tensor.t) :
  follow st (BatchNormalization.input n) = Ok X ->
  (2 <= length (Tensor.data_dim X))%nat ->
  exists s, print n st = Ok s.
Proof.
  intros HX Hrank. unfold print. rewrite HX. cbn [bind].
  destruct (Tensor.data_dim X) as [| batch [| chan spatial]] eqn:Hdim;
    [simpl in Hrank; lia.. |].
  cbn [index lookup list_lookup bind length Nat.sub].
  rewrite print_data_loops_spec by (simpl; lia). cbn [bind]. eauto.
Qed.

(** X13. Emission is defined exactly on a node whose input handle names a
    tensor of rank at least 2: then, and only then, [print] returns text;
    and it never raises an error of its own. *)
Theorem print_defined_iff (n : node) (st : store) :
  ((exists s, print n st = Ok s) <->
   exists X, follow st (BatchNormalization.input n) = Ok X /\
             (2 <= length (Tensor.data_dim X))%nat) /\
  (forall msg : string, print n st <> ERROR msg).
Proof.
  split; [split |].
  - intros (s & H). unfold print in H.
    apply bind_Ok in H as (X & HX & H).
    apply bind_Ok in H as (batch & Hb%index_Ok & H).
    apply bind_Ok in H as (chan & Hc%index_Ok & _).
    exists X. split; [done |]. apply lookup_lt_Some in Hc. lia.
  - intros (X & HX & Hrank). by apply print_rank_ge_2 with X.
  - intros msg H. unfold print in H.
    apply bind_ERROR in H as [H | (X & _ & H)].
    { unfold follow, deref in H.
      destruct (BatchNormalization.input n) as [p |]; [| discriminate].
      by destruct (st !! p). }
    apply bind_ERROR in H as [H | (batch & Hb%index_Ok & H)].
    { unfold index in H. by destruct (Tensor.data_dim X !! 0%nat). }
    apply bind_ERROR in H as [H | (chan & Hc%index_Ok & H)].
    { unfold index in H. by destruct (Tensor.data_dim X !! 1%nat). }
    apply bind_ERROR in H as [H | (? & _ & H)]; [| discriminate].
    destruct (Tensor.data_dim X) as [| b [| c spatial]] eqn:Hdim; try discriminate.
    rewrite print_data_loops_spec in H by (simpl; lia). discriminate.
Qed.

(** X14. What emission reads. Of the store [print] uses the shape of the
    input tensor and the name of its element type, and nothing else; of
    the node it uses [epsilon], [momentum], [sqrt_var_offline] and whether
    [scale] and [bias] are null. No buffer, and no tensor behind [scale],
    [bias], [mean] or [var], has any influence on the text. *)
Theorem print_reads (n m : node) (st st' : store) (X X' : Tensor.t) :
  follow st (BatchNormalization.input n) = Ok X ->
  follow st' (BatchNormalization.input m) = Ok X' ->
  Tensor.data_dim X = Tensor.data_dim X' ->
  data_type_str X = data_type_str X' ->
  BatchNormalization.epsilon n = BatchNormalization.epsilon m ->
  BatchNormalization.momentum n = BatchNormalization.momentum m ->
  BatchNormalization.sqrt_var_offline n = BatchNormalization.sqrt_var_offline m ->
  (BatchNormalization.scale n = None <-> BatchNormalization.scale m = None) ->
  (BatchNormalization.bias n = None <-> BatchNormalization.bias m = None) ->
  print n st = print m st'.
Proof.
  intros HX HX' Hdim Hty Heps Hmom Hflag Hscale Hbias.
  unfold print. rewrite HX, HX'. cbn [bind]. rewrite Hdim, Hty.
  assert (Hout : forall idxs, print_output idxs n = print_output idxs m).
  { intros idxs. unfold print_output.
    destruct (BatchNormalization.scale n), (BatchNormalization.scale m),
      (BatchNormalization.bias n), (BatchNormalization.bias m);
      try done;
      first [ discriminate (proj1 Hscale eq_refl) | discriminate (proj2 Hscale eq_refl)
            | discriminate (proj1 Hbias eq_refl) | discriminate (proj2 Hbias eq_refl) ]. }
  unfold print_comment, print_epsilon, print_tmp_X.
  by rewrite Heps, Hmom, Hflag, !Hout.
Qed.

(** ** Resolution followed by emission, and parsing followed by resolution *)

Lemma resolve_Ok_input (n n' : node) (st st' : store) (p0 : ptr) (X : Tensor.t) :
  resolve n st = Ok (n', st') ->
  BatchNormalization.inputs n !! 0%nat = Some p0 ->
  st !! p0 = Some X ->
  exists X',
    follow st' (BatchNormalization.input n') = Ok X' /\
    Tensor.data_dim X' = Tensor.data_dim X /\
    Tensor.data_type X' = Tensor.data_type X.
Proof.
  intros H Hp0 HX. pose proof H as Hstore.
  apply resolve_Ok_store in Hstore
    as (q0 & q4 & u0 & u4 & Hq0 & _ & _ & Hu4 & -> & _).
  apply resolve_Ok_inv in H
    as (p0' & p1 & p2 & p3 & p4 & t0 & t1 & t2 & t3 & t4 & s1 & s0 & stf
        & Hin & _ & _ & _ & _ & _ & _ & ->).
  rewrite Hin in Hp0. injection Hp0 as ->.
  cbn [BatchNormalization.input follow]. unfold deref.
  pose proof (lookup_lt_Some _ _ _ HX) as Hlt.
  destruct (Tensor.isConst u4).
  - rewrite lookup_app_l by (by rewrite length_insert).
    destruct (decide (q4 = p0)) as [-> | Hne].
    + rewrite list_lookup_insert_eq by done.
      assert (u4 = X) as -> by congruence. eauto.
    + rewrite list_lookup_insert_ne by done. rewrite HX. eauto.
  - rewrite lookup_app_l by done. rewrite HX. eauto.
Qed.

(** X15. Resolution followed by emission: on an input of rank at least 2
    the node that a successful resolution returns can always be printed in
    the store it returns, whichever operands were folded or elided. *)
Theorem resolve_then_print (n n' : node) (st st' : store) (p0 : ptr) (X : Tensor.t) :
  resolve n st = Ok (n', st') ->
  BatchNormalization.inputs n !! 0%nat = Some p0 ->
  st !! p0 = Some X ->
  (2 <= length (Tensor.data_dim X))%nat ->
  exists s, print n' st' = Ok s.
Proof.
  intros H Hp0 HX Hrank.
  destruct (resolve_Ok_input _ _ _ _ _ _ H Hp0 HX) as (X' & HX' & Hdim & _).
  apply print_rank_ge_2 with X'; [done | by rewrite Hdim].
Qed.

(** X16. Parsing followed by resolution: the epsilon folded into a constant
    single-precision variance is the one the attributes gave, that is the
    value of the last epsilon record, or the value the node had when there
    is none; the node that comes out carries the same epsilon. *)
Theorem parse_then_resolve (proto : NodeProto.t) (n n1 n' : node) (st st' : store)
    (pv : ptr) (tv : Tensor.t) :
  parseAttributes proto n = Ok n1 ->
  resolve n1 st = Ok (n', st') ->
  BatchNormalization.inputs n !! 4%nat = Some pv ->
  st !! pv = Some tv ->
  Tensor.isConst tv = true ->
  Tensor.data_type tv = FLOAT ->
  let eps := last_f "epsilon" (NodeProto.attribute proto) (BatchNormalization.epsilon n) in
  BatchNormalization.epsilon n' = eps /\
  exists tv',
    st' !! pv = Some tv' /\
    Tensor.data_buffer tv'
    = folded eps (Z.to_nat (data_num_elem tv)) (Tensor.data_buffer tv).
Proof.
  intros Hparse H Hpv Htv Hc _ eps.
  apply parseAttributes_loop_result in Hparse.
  assert (Heps : BatchNormalization.epsilon n1 = eps) by (by rewrite Hparse).
  assert (Hin1 : BatchNormalization.inputs n1 = BatchNormalization.inputs n)
    by (by rewrite Hparse).
  pose proof H as Hstore. apply resolve_Ok_store in Hstore
    as (q0 & q4 & u0 & u4 & _ & Hq4 & _ & Hu4 & -> & _).
  rewrite Hin1 in Hq4. assert (q4 = pv) as -> by congruence.
  assert (u4 = tv) as -> by congruence. rewrite Hc, Heps.
  apply resolve_Ok_inv in H
    as (p0' & p1 & p2 & p3 & p4 & t0 & t1 & t2 & t3 & t4 & s1 & s0 & stf
        & _ & _ & _ & _ & _ & _ & _ & ->).
  split; [done |]. pose proof (lookup_lt_Some _ _ _ Htv) as Hlt.
  eexists. split.
  - rewrite lookup_app_l by (by rewrite length_insert).
    by apply list_lookup_insert_eq.
  - done.
Qed.

End Lowering.

(** * The scenarios, run through the theorems *)

Example scenario_text :
  print sample_data_type_str sample_show_float tab (tab +:+ tab)
    scenario_resolved.1 scenario_resolved.2
  = Ok (text
      [tab +:+ "/* BatchNormalization" +:+ endl;
       tab +:+ " * epsilon = 1e-05" +:+ endl;
       tab +:+ " * momentum = 0.9" +:+ endl;
       tab +:+ " */" +:+ endl;
       endl;
       tab +:+ "for( int32_t b=0; b<2; b++ ) {" +:+ endl;
       tab +:+ "for( int32_t c=0; c<3; c++ ) {" +:+ endl;
       tab +:+ "for( uint32_t i2=0; i2<4; i2++ ) {" +:+ endl;
       tab +:+ "for( uint32_t i3=0; i3<4; i3++ ) {" +:+ endl;
       tab +:+ tab +:+ "float tmp_X = ( X[b][c][i2][i3] - mean[c] ) / ( var[c] );" +:+ endl;
       tab +:+ tab +:+ "output[b][c][i2][i3] = tmp_X ;" +:+ endl;
       tab +:+ "}" +:+ endl;
       tab +:+ "}" +:+ endl;
       tab +:+ "}" +:+ endl;
       tab +:+ "}" +:+ endl]).
Proof. reflexivity. Qed.

Example scenario_runtime_text :
  print sample_data_type_str sample_show_float tab (tab +:+ tab)
    scenario_resolved_runtime.1 scenario_resolved_runtime.2
  = Ok (text
      [tab +:+ "/* BatchNormalization" +:+ endl;
       tab +:+ " * epsilon = 1e-05" +:+ endl;
       tab +:+ " * momentum = 0.9" +:+ endl;
       tab +:+ " */" +:+ endl;
       endl;
       tab +:+ "float epsilon = 1e-05;" +:+ endl;
       tab +:+ "for( int32_t b=0; b<2; b++ ) {" +:+ endl;
       tab +:+ "for( int32_t c=0; c<3; c++ ) {" +:+ endl;
       tab +:+ "for( uint32_t i2=0; i2<4; i2++ ) {" +:+ endl;
       tab +:+ "for( uint32_t i3=0; i3<4; i3++ ) {" +:+ endl;
       tab +:+ tab
         +:+ "float tmp_X = ( X[b][c][i2][i3] - mean[c] ) / ( sqrt( var[c] + epsilon));"
         +:+ endl;
       tab +:+ tab +:+ "output[b][c][i2][i3] = tmp_X ;" +:+ endl;
       tab +:+ "}" +:+ endl;
       tab +:+ "}" +:+ endl;
       tab +:+ "}" +:+ endl;
       tab +:+ "}" +:+ endl]).
Proof. reflexivity. Qed.

Example scenario_folded_variance :
  Tensor.data_buffer <$> scenario_resolved.2 !! 4%nat
  = Some [S754_finite false 8388650 (-23); S754_finite false 8388618 (-22);
          S754_finite false 12582919 (-22)].
Proof. reflexivity. Qed.

Example scenario_variance_of_doubles :
  BatchNormalization.sqrt_var_offline scenario_resolved_doubles.1 = true /\
  Tensor.data_buffer <$> scenario_resolved_doubles.2 !! 4%nat
  = Some [float_sqrt (float_add float_0_0 float_1em5);
          float_sqrt (float_add (S754_finite false 15728640 (-23)) float_1em5);
          float_sqrt (float_add float_0_0 float_1em5);
          S754_finite false 9437184 (-22);
          float_0_0; S754_finite false 10616832 (-22)].
Proof. split; reflexivity. Qed.

Lemma resolve_variance_of_doubles_witness :
  (resolve scenario_node scenario_store_doubles = Ok scenario_resolved_doubles /\
   Tensor.isConst sample_variance_of_doubles = true /\
   Tensor.data_type sample_variance_of_doubles = DOUBLE /\
   length (Tensor.data_buffer sample_variance_of_doubles)
   = (2 * Z.to_nat (data_num_elem sample_variance_of_doubles))%nat) /\
  BatchNormalization.sqrt_var_offline scenario_resolved_doubles.1 = true /\
  exists tv',
    scenario_resolved_doubles.2 !! 4%nat = Some tv' /\
    Tensor.data_type tv' = DOUBLE /\
    length (Tensor.data_buffer tv') = 6%nat /\
    Tensor.data_buffer tv' !! 0%nat
    = Some (float_sqrt (float_add float_0_0 float_1em5)) /\
    Tensor.data_buffer tv' !! 4%nat = Some float_0_0 /\
    Tensor.data_buffer tv' !! 5%nat = Some (S754_finite false 10616832 (-22)).
Proof.
  split; [repeat split |].
  destruct (resolve_variance_of_doubles
              scenario_node scenario_resolved_doubles.1
              scenario_store_doubles scenario_resolved_doubles.2
              4%nat sample_variance_of_doubles
              eq_refl eq_refl eq_refl eq_refl eq_refl eq_refl)
    as (Hflag & tv' & Htv' & Hty & Hlen & Hin & Hout).
  split; [exact Hflag |]. exists tv'.
  split; [exact Htv' |]. split; [exact Hty |]. split; [exact Hlen |].
  destruct (Hin 0%nat) as (x & Hx & Hx'); [vm_compute; lia |].
  injection Hx as <-.
  destruct (Hout 2%nat) as (H4 & H5); [vm_compute; lia |].
  split; [exact Hx' |]. split; [exact H4 | exact H5].
Defined.

Lemma isSplatted_spec_witness :
  scenario_store !! 1%nat = Some scenario_scale /\
  [sample_double] !! 0%nat = Some sample_double /\
  (exists r, isSplatted scenario_store (Some 1%nat) float_1_0 = Ok r /\
     (r = true <->
      Tensor.isConst scenario_scale = true /\
      forall y, y ∈ Tensor.data_buffer scenario_scale -> float_neq y float_1_0 = false)) /\
  isSplatted scenario_store_runtime (Some 4%nat) float_1_0 = Ok false /\
  isSplatted [sample_double] (Some 0%nat) float_1_0 = ERROR "Unimplemented".
Proof.
  split; [reflexivity |]. split; [reflexivity |]. split; [| split].
  - apply (isSplatted_spec scenario_store 1%nat scenario_scale float_1_0 eq_refl);
      [reflexivity | intros _ _; reflexivity].
  - apply (isSplatted_spec scenario_store_runtime 4%nat scenario_var_runtime
             float_1_0 eq_refl); reflexivity.
  - apply (isSplatted_spec [sample_double] 0%nat sample_double float_1_0 eq_refl).
    discriminate.
Defined.

Lemma resolve_identity_elision_witness :
  resolve scenario_node scenario_store = Ok scenario_resolved /\
  (BatchNormalization.scale scenario_resolved.1 = None /\
   BatchNormalization.bias scenario_resolved.1 = None /\
   forall idxs : string,
     print_output (tab +:+ tab) idxs scenario_resolved.1
     = (tab +:+ tab) +:+ "output" +:+ idxs +:+ " = tmp_X " +:+ "" +:+ ";" +:+ endl).
Proof.
  split; [reflexivity |].
  destruct (resolve_identity_elision (tab +:+ tab)
              scenario_node scenario_resolved.1 scenario_store scenario_resolved.2
              1%nat 2%nat scenario_scale scenario_bias
              eq_refl eq_refl eq_refl eq_refl eq_refl) as [Hscale Hbias].
  destruct Hscale as [Hs Htext]; [reflexivity | |].
  { intros j Hj. destruct j as [| [| [| j]]]; [by eexists.. | vm_compute in Hj; lia]. }
  destruct Hbias as [Hb _]; [reflexivity | |].
  { intros j Hj. destruct j as [| [| [| j]]]; [by eexists.. | vm_compute in Hj; lia]. }
  split; [exact Hs |]. split; [exact Hb |]. exact Htext.
Defined.

Lemma print_loop_nest_witness :
  (follow scenario_resolved.2 (BatchNormalization.input scenario_resolved.1)
   = Ok scenario_X /\
   (2 <= length (Tensor.data_dim scenario_X))%nat) /\
  print sample_data_type_str sample_show_float tab (tab +:+ tab)
    scenario_resolved.1 scenario_resolved.2
  = Ok (print_comment sample_show_float scenario_resolved.1
        +:+ ""
        +:+ text (spec_loop_nest [2; 3; 4; 4])
        +:+ print_tmp_X (tab +:+ tab) "float"
              (spec_element_index [2; 3; 4; 4]) scenario_resolved.1
        +:+ print_output (tab +:+ tab)
              (spec_element_index [2; 3; 4; 4]) scenario_resolved.1
        +:+ text (replicate 4 spec_loop_end)) /\
  length (spec_loop_nest [2; 3; 4; 4]) = 4%nat /\
  spec_loop_nest [2; 3; 4; 4] !! 3%nat = Some (spec_loop 3 4).
Proof.
  split; [split; [reflexivity | simpl; lia] |].
  destruct (print_loop_nest sample_data_type_str sample_show_float tab (tab +:+ tab)
              scenario_resolved.1 scenario_resolved.2 scenario_X eq_refl)
    as (Hprint & Hlen & Hloops); [simpl; lia |].
  split; [exact Hprint |]. split; [exact Hlen |]. exact (Hloops 3%nat 4 eq_refl).
Defined.

Lemma resolve_output_witness :
  (resolve scenario_node scenario_store = Ok scenario_resolved /\
   BatchNormalization.inputs scenario_node !! 0%nat = Some 0%nat /\
   scenario_store !! 0%nat = Some scenario_X) /\
  exists (p : ptr) (rv : Tensor.t),
    scenario_store !! p = None /\
    scenario_resolved.2 !! p = Some rv /\
    Tensor.data_dim rv = [2; 3; 4; 4] /\
    Tensor.data_type rv = FLOAT /\
    BatchNormalization.output scenario_resolved.1 = Some p /\
    BatchNormalization.output_params scenario_resolved.1 = [] ++ [(p, "output")] /\
    (BatchNormalization.output_params scenario_node = [] ->
     BatchNormalization.output_params scenario_resolved.1 = [(p, "output")]).
Proof.
  split; [repeat split |].
  exact (resolve_output scenario_node scenario_resolved.1 scenario_store
           scenario_resolved.2 0%nat scenario_X eq_refl eq_refl eq_refl).
Defined.

Lemma resolve_arity_witness :
  (length (BatchNormalization.inputs (BatchNormalization.constructed [0; 1; 2; 3]%nat))
   <> 5%nat /\
   length (BatchNormalization.inputs scenario_node) = 5%nat) /\
  resolve (BatchNormalization.constructed [0; 1; 2; 3]%nat) scenario_store
  = ERROR "wrong number of inputs to BatchNormalization" /\
  resolve scenario_node scenario_store
  <> ERROR "wrong number of inputs to BatchNormalization".
Proof.
  split; [split; [discriminate | reflexivity] |]. split.
  - apply (resolve_arity (BatchNormalization.constructed [0; 1; 2; 3]%nat) scenario_store).
    discriminate.
  - apply (resolve_arity scenario_node scenario_store). reflexivity.
Defined.

Lemma resolve_type_check_witness :
  let st := [scenario_X; scenario_scale; sample_int32; scenario_mean; scenario_var] in
  (BatchNormalization.inputs scenario_node = [0; 1; 2; 3; 4]%nat /\
   st !! 0%nat = Some scenario_X /\ st !! 1%nat = Some scenario_scale /\
   st !! 2%nat = Some sample_int32 /\ st !! 3%nat = Some scenario_mean /\
   st !! 4%nat = Some scenario_var) /\
  resolve scenario_node st = ERROR "Incorrect input for node".
Proof.
  intros st. split; [repeat split |].
  apply (resolve_type_check scenario_node st 0%nat 1%nat 2%nat 3%nat 4%nat
           scenario_X scenario_scale sample_int32 scenario_mean scenario_var
           eq_refl eq_refl eq_refl eq_refl eq_refl eq_refl)
    with (t := sample_int32).
  - rewrite !elem_of_cons. auto.
  - simpl. rewrite !elem_of_cons. auto 10.
Defined.

Lemma parseAttributes_spec_witness :
  (parseAttributes_loop sample_parse_attribute_int [sample_epsilon] scenario_node
   = Ok scenario_node) /\
  parseAttributes sample_parse_attribute_int
    (NodeProto.mk [sample_epsilon; sample_training_mode]) scenario_node
  = ERROR "Unknown attribute training_mode" /\
  parseAttributes sample_parse_attribute_int
    (NodeProto.mk [sample_epsilon; sample_spatial_0]) scenario_node
  = ERROR "non-default value for 'spatial' attribute not implemented" /\
  parseAttributes sample_parse_attribute_int
    (NodeProto.mk [sample_epsilon; sample_epsilon_int]) scenario_node
  = ERROR "Bad attribute epsilon" /\
  Forall (fun a => AttributeProto.name a ∈ ["epsilon"; "momentum"; "spatial"])
         [sample_epsilon].
Proof.
  split; [reflexivity |]. split; [| split; [| split]].
  - apply (proj2 (parseAttributes_spec sample_parse_attribute_int
                    (NodeProto.mk [sample_epsilon; sample_training_mode]) scenario_node)
             [sample_epsilon] [] sample_training_mode scenario_node eq_refl eq_refl).
    simpl. rewrite !elem_of_cons, elem_of_nil. intros [H | [H | [H | []]]]; discriminate H.
  - apply (proj2 (parseAttributes_spec sample_parse_attribute_int
                    (NodeProto.mk [sample_epsilon; sample_spatial_0]) scenario_node)
             [sample_epsilon] [] sample_spatial_0 scenario_node eq_refl eq_refl)
      with (v := 0); [reflexivity | reflexivity | discriminate].
  - apply (proj2 (parseAttributes_spec sample_parse_attribute_int
                    (NodeProto.mk [sample_epsilon; sample_epsilon_int]) scenario_node)
             [sample_epsilon] [] sample_epsilon_int scenario_node eq_refl eq_refl);
      [left; reflexivity | left; discriminate].
  - exact (proj1 (parseAttributes_spec sample_parse_attribute_int
                    (NodeProto.mk [sample_epsilon]) scenario_node)
             scenario_node eq_refl).
Defined.

Lemma resolve_scale_bias_not_single_precision_witness :
  let st := [scenario_X; sample_double; scenario_bias; scenario_mean; scenario_var] in
  (BatchNormalization.inputs scenario_node = [0; 1; 2; 3; 4]%nat /\
   st !! 1%nat = Some sample_double /\
   typeConstraint_plainFloatingPoints sample_double = true /\
   well_formed sample_double /\
   Tensor.data_type sample_double <> FLOAT) /\
  resolve scenario_node st = ERROR "Unimplemented".
Proof.
  intros st.
  assert (Hwf : well_formed sample_double) by (intros H; discriminate H).
  split; [repeat split; [exact Hwf | discriminate] |].
  apply (resolve_scale_bias_not_single_precision scenario_node st
           0%nat 1%nat 2%nat 3%nat 4%nat
           scenario_X sample_double scenario_bias scenario_mean scenario_var
           eq_refl eq_refl eq_refl eq_refl eq_refl eq_refl
           eq_refl eq_refl eq_refl eq_refl eq_refl Hwf).
  left. discriminate.
Defined.

Lemma resolve_ignores_rank_witness :
  let st := [sample_rank1; scenario_scale; scenario_bias; scenario_mean; scenario_var] in
  (BatchNormalization.inputs scenario_node = [0; 1; 2; 3; 4]%nat /\
   st !! 0%nat = Some sample_rank1 /\
   (length (Tensor.data_dim sample_rank1) < 2)%nat) /\
  exists (n' : node) (st' : store) (X : Tensor.t),
    resolve scenario_node st = Ok (n', st') /\
    follow st' (BatchNormalization.input n') = Ok X /\
    Tensor.data_dim X = [5] /\
    print sample_data_type_str sample_show_float tab (tab +:+ tab) n' st'
    = Undefined OutOfBounds.
Proof.
  intros st. split; [repeat split; simpl; lia |].
  destruct (resolve_ignores_rank sample_data_type_str sample_show_float tab (tab +:+ tab)
              scenario_node st 0%nat 1%nat 2%nat 3%nat 4%nat
              sample_rank1 scenario_scale scenario_bias scenario_mean scenario_var
              eq_refl eq_refl eq_refl eq_refl eq_refl eq_refl
              eq_refl eq_refl eq_refl eq_refl eq_refl)
    as (n' & st' & X & Hres & HX & Hdim & Hprint);
    [intros _ _; reflexivity.. |].
  exists n', st', X. split; [exact Hres |]. split; [exact HX |].
  split; [exact Hdim |]. apply Hprint. simpl. lia.
Defined.

(** * The further properties, run on the scenarios *)

Lemma parseAttributes_result_witness :
  let proto := NodeProto.mk [sample_epsilon_1; sample_momentum; sample_epsilon] in
  parseAttributes sample_parse_attribute_int proto scenario_node
  = Ok (BatchNormalization.set_momentum float_1_0 scenario_node) /\
  BatchNormalization.set_momentum float_1_0 scenario_node
  = BatchNormalization.set_momentum
      (last_f "momentum" (NodeProto.attribute proto)
         (BatchNormalization.momentum scenario_node))
      (BatchNormalization.set_epsilon
         (last_f "epsilon" (NodeProto.attribute proto)
            (BatchNormalization.epsilon scenario_node))
         scenario_node).
Proof.
  intros proto. split; [reflexivity |].
  exact (parseAttributes_result sample_parse_attribute_int proto scenario_node
           (BatchNormalization.set_momentum float_1_0 scenario_node) eq_refl).
Defined.

Lemma parseAttributes_succeeds_iff_witness :
  let proto := NodeProto.mk [sample_epsilon; sample_spatial_1] in
  (exists n', parseAttributes sample_parse_attribute_int proto scenario_node = Ok n') /\
  ~ (exists n', parseAttributes sample_parse_attribute_int
                  (NodeProto.mk [sample_epsilon; sample_spatial_float]) scenario_node
                = Ok n').
Proof.
  intros proto. split.
  - apply (parseAttributes_succeeds_iff sample_parse_attribute_int proto scenario_node).
    apply Forall_cons. split; [left; split; [by left | by split] |].
    apply Forall_cons. split; [right; by split | apply Forall_nil_2].
  - intros H.
    apply (parseAttributes_succeeds_iff sample_parse_attribute_int
             (NodeProto.mk [sample_epsilon; sample_spatial_float]) scenario_node) in H.
    apply Forall_cons in H as [_ H]. apply Forall_cons in H as [H _].
    destruct H as [([H | H] & _) | (_ & H)]; discriminate H.
Defined.

Lemma isSplatted_outcomes_witness :
  ([sample_short] !! 0%nat = Some sample_short /\
   Tensor.data_type sample_short = FLOAT /\ Tensor.isConst sample_short = true) /\
  isSplatted [sample_short] (Some 0%nat) float_1_0 = Undefined OutOfBounds /\
  isSplatted [sample_short] (Some 0%nat) float_0_0 = Ok false /\
  isSplatted scenario_store (Some 1%nat) float_1_0 = Ok true.
Proof.
  split; [repeat split |]. split; [| split].
  - apply (isSplatted_outcomes [sample_short] 0%nat sample_short float_1_0
             eq_refl eq_refl eq_refl).
    split; [vm_compute; lia |].
    intros y Hy. apply list_elem_of_singleton in Hy. by subst.
  - apply (isSplatted_outcomes [sample_short] 0%nat sample_short float_0_0
             eq_refl eq_refl eq_refl).
    exists 0%nat, float_1_0. split; [vm_compute; lia | by split].
  - apply (isSplatted_outcomes scenario_store 1%nat scenario_scale float_1_0
             eq_refl eq_refl eq_refl).
    split; [vm_compute; lia |].
    intros j y Hj Hy. destruct j as [| [| [| j]]]; try (by injection Hy as <-).
    discriminate Hy.
Defined.

Lemma isSplatted_no_element_witness :
  ([sample_empty] !! 0%nat = Some sample_empty /\
   0 ∈ Tensor.data_dim sample_empty) /\
  isSplatted [sample_empty] (Some 0%nat) float_1_0 = Ok true.
Proof.
  assert (H0 : 0 ∈ Tensor.data_dim sample_empty).
  { simpl. apply list_elem_of_further, list_elem_of_here. }
  split; [by split |].
  exact (isSplatted_no_element [sample_empty] 0%nat sample_empty float_1_0
           eq_refl eq_refl eq_refl H0).
Defined.

Lemma isSplatted_ieee_witness :
  (scenario_store !! 1%nat = Some scenario_scale /\
   [sample_negative_zeros] !! 0%nat = Some sample_negative_zeros /\
   well_formed sample_negative_zeros) /\
  isSplatted scenario_store (Some 1%nat) S754_nan = Ok false /\
  isSplatted [sample_negative_zeros] (Some 0%nat) float_0_0 = Ok true.
Proof.
  assert (Hwf : well_formed sample_negative_zeros) by (intros _ _; reflexivity).
  split; [by repeat split |]. split.
  - apply (isSplatted_ieee scenario_store 1%nat scenario_scale eq_refl eq_refl eq_refl);
      [reflexivity | discriminate].
  - apply (isSplatted_ieee [sample_negative_zeros] 0%nat sample_negative_zeros
             eq_refl eq_refl eq_refl); [exact Hwf |].
    intros y Hy. exists true.
    apply elem_of_cons in Hy as [-> | Hy]; [done |].
    apply list_elem_of_singleton in Hy. by subst.
Defined.

Lemma calculateSqrtVarOffline_spec_witness :
  (BatchNormalization.var scenario_resolved.1 = Some 4%nat /\
   scenario_store !! 4%nat = Some scenario_var /\
   [sample_short] !! 0%nat = Some sample_short) /\
  calculateSqrtVarOffline scenario_resolved.1 scenario_store
  = Ok (<[4%nat := Tensor.with_data_buffer
                     (folded float_1em5 3 (Tensor.data_buffer scenario_var))
                     scenario_var]> scenario_store) /\
  calculateSqrtVarOffline
    (BatchNormalization.set_var (Some 0%nat) scenario_node) [sample_short]
  = Undefined OutOfBounds.
Proof.
  split; [repeat split |]. split.
  - apply (calculateSqrtVarOffline_spec scenario_resolved.1 scenario_store
             4%nat scenario_var eq_refl eq_refl eq_refl).
    vm_compute. lia.
  - apply (calculateSqrtVarOffline_spec
             (BatchNormalization.set_var (Some 0%nat) scenario_node) [sample_short]
             0%nat sample_short eq_refl eq_refl eq_refl).
    vm_compute. lia.
Defined.

Lemma resolve_store_frame_witness :
  resolve scenario_node scenario_store = Ok scenario_resolved /\
  length scenario_resolved.2 = 6%nat /\
  exists x',
    scenario_resolved.2 !! 3%nat = Some x' /\
    Tensor.data_dim x' = Tensor.data_dim scenario_mean /\
    Tensor.data_type x' = Tensor.data_type scenario_mean /\
    Tensor.isConst x' = Tensor.isConst scenario_mean /\
    (BatchNormalization.inputs scenario_node !! 4%nat <> Some 3%nat ->
     x' = scenario_mean).
Proof.
  split; [reflexivity |].
  destruct (resolve_store_frame scenario_node scenario_resolved.1
              scenario_store scenario_resolved.2 eq_refl) as [Hlen Hframe].
  split; [exact Hlen |]. exact (Hframe 3%nat scenario_mean eq_refl).
Defined.

Lemma resolve_binds_operands_witness :
  resolve scenario_node scenario_store = Ok scenario_resolved /\
  BatchNormalization.var scenario_resolved.1 = Some 4%nat /\
  BatchNormalization.input_params scenario_resolved.1
  = [(0, "X"); (1, "scale"); (2, "bias"); (3, "mean"); (4, "var")]%nat /\
  BatchNormalization.output scenario_resolved.1 = Some 5%nat.
Proof.
  split; [reflexivity |].
  destruct (resolve_binds_operands scenario_node scenario_resolved.1
              scenario_store scenario_resolved.2 eq_refl)
    as (_ & _ & _ & _ & _ & Hvar & _ & _ & Hparams & Hout).
  split; [exact Hvar |]. split; [exact Hparams | exact Hout].
Defined.

Lemma resolve_elision_sound_witness :
  (resolve scenario_node scenario_store = Ok scenario_resolved /\
   BatchNormalization.scale scenario_resolved.1 = None) /\
  exists (ps : ptr) (ts : Tensor.t),
    BatchNormalization.inputs scenario_node !! 1%nat = Some ps /\
    scenario_store !! ps = Some ts /\
    Tensor.data_type ts = FLOAT /\ Tensor.isConst ts = true /\
    forall j : nat, (j < Z.to_nat (data_num_elem ts))%nat ->
      exists y, Tensor.data_buffer ts !! j = Some y /\ float_neq y float_1_0 = false.
Proof.
  split; [split; reflexivity |].
  exact (proj1 (resolve_elision_sound scenario_node scenario_resolved.1
                  scenario_store scenario_resolved.2 eq_refl) eq_refl).
Defined.

Lemma resolve_shared_variance_witness :
  (resolve scenario_node scenario_store = Ok scenario_resolved /\
   resolve scenario_node scenario_resolved.2 = Ok scenario_resolved_twice) /\
  exists tv2,
    scenario_resolved_twice.2 !! 4%nat = Some tv2 /\
    Tensor.data_buffer tv2
    = folded float_1em5 3 (folded float_1em5 3 (Tensor.data_buffer scenario_var)) /\
    Tensor.data_buffer tv2
    <> folded float_1em5 3 (Tensor.data_buffer scenario_var).
Proof.
  split; [split; reflexivity |].
  destruct (resolve_shared_variance scenario_node scenario_resolved.1
              scenario_node scenario_resolved_twice.1
              scenario_store scenario_resolved.2 scenario_resolved_twice.2
              4%nat scenario_var
              eq_refl eq_refl eq_refl eq_refl eq_refl eq_refl eq_refl)
    as (tv2 & Hlookup & Hbuf & _).
  exists tv2. split; [exact Hlookup |]. split; [exact Hbuf |].
  rewrite Hbuf. discriminate.
Defined.

Lemma resolve_succeeds_iff_witness :
  (exists (n' : node) (st' : store), resolve scenario_node scenario_store = Ok (n', st')) /\
  (exists (n' : node) (st' : store),
     resolve scenario_node scenario_store_doubles = Ok (n', st')) /\
  ~ (exists (n' : node) (st' : store),
       resolve scenario_node
         [scenario_X; sample_double; scenario_bias; scenario_mean; scenario_var]
       = Ok (n', st')).
Proof.
  split; [| split].
  - apply (resolve_succeeds_iff scenario_node scenario_store).
    exists 0%nat, 1%nat, 2%nat, 3%nat, 4%nat,
      scenario_X, scenario_scale, scenario_bias, scenario_mean, scenario_var.
    split; [reflexivity |]. split; [repeat split |]. split; [repeat split |].
    split; [split; [reflexivity | by exists true] |].
    split; [split; [reflexivity | by exists true] |].
    intros _. vm_compute; lia.
  - apply (resolve_succeeds_iff scenario_node scenario_store_doubles).
    exists 0%nat, 1%nat, 2%nat, 3%nat, 4%nat,
      scenario_X, scenario_scale, scenario_bias, scenario_mean,
      sample_variance_of_doubles.
    split; [reflexivity |]. split; [repeat split |]. split; [repeat split |].
    split; [split; [reflexivity | by exists true] |].
    split; [split; [reflexivity | by exists true] |].
    intros _. vm_compute; lia.
  - intros H.
    apply (resolve_succeeds_iff scenario_node
             [scenario_X; sample_double; scenario_bias; scenario_mean; scenario_var]) in H.
    destruct H as (p0 & p1 & p2 & p3 & p4 & t0 & t1 & t2 & t3 & t4 & Hin
                   & (_ & H1 & _) & _ & (Hty & _) & _).
    injection Hin as <- <- <- <- <-. injection H1 as <-. discriminate Hty.
Defined.

Lemma resolve_Unimplemented_inv_witness :
  let st := [scenario_X; sample_double; scenario_bias; scenario_mean; scenario_var] in
  resolve scenario_node st = ERROR "Unimplemented" /\
  exists (p0 p1 p2 p3 p4 : ptr) (t0 t1 t2 t3 t4 : Tensor.t),
    BatchNormalization.inputs scenario_node = [p0; p1; p2; p3; p4] /\
    (st !! p0 = Some t0 /\ st !! p1 = Some t1 /\ st !! p2 = Some t2 /\
     st !! p3 = Some t3 /\ st !! p4 = Some t4) /\
    (typeConstraint_plainFloatingPoints t0 = true /\
     typeConstraint_plainFloatingPoints t1 = true /\
     typeConstraint_plainFloatingPoints t2 = true /\
     typeConstraint_plainFloatingPoints t3 = true /\
     typeConstraint_plainFloatingPoints t4 = true) /\
    (Tensor.data_type t1 <> FLOAT \/ Tensor.data_type t2 <> FLOAT).
Proof.
  intros st. split; [reflexivity |].
  exact (resolve_Unimplemented_inv scenario_node st eq_refl).
Defined.

Lemma print_defined_iff_witness :
  (exists X, follow scenario_resolved.2 (BatchNormalization.input scenario_resolved.1)
             = Ok X /\ (2 <= length (Tensor.data_dim X))%nat) /\
  (exists s, print sample_data_type_str sample_show_float tab (tab +:+ tab)
               scenario_resolved.1 scenario_resolved.2 = Ok s) /\
  ~ (exists s, print sample_data_type_str sample_show_float tab (tab +:+ tab)
                 scenario_node scenario_store = Ok s).
Proof.
  assert (HX : exists X,
             follow scenario_resolved.2 (BatchNormalization.input scenario_resolved.1)
             = Ok X /\ (2 <= length (Tensor.data_dim X))%nat).
  { exists scenario_X. split; [reflexivity | simpl; lia]. }
  split; [exact HX |]. split.
  - exact (proj2 (proj1 (print_defined_iff sample_data_type_str sample_show_float
                           tab (tab +:+ tab) scenario_resolved.1 scenario_resolved.2)) HX).
  - intros H.
    apply (proj1 (print_defined_iff sample_data_type_str sample_show_float
                    tab (tab +:+ tab) scenario_node scenario_store)) in H.
    destruct H as (X & HX' & _). discriminate HX'.
Defined.

Lemma print_reads_witness :
  (follow scenario_resolved.2 (BatchNormalization.input scenario_resolved.1)
   = Ok scenario_X /\
   follow scenario_store (BatchNormalization.input scenario_resolved.1)
   = Ok scenario_X) /\
  print sample_data_type_str sample_show_float tab (tab +:+ tab)
    scenario_resolved.1 scenario_resolved.2
  = print sample_data_type_str sample_show_float tab (tab +:+ tab)
      (BatchNormalization.set_mean None scenario_resolved.1) scenario_store.
Proof.
  split; [split; reflexivity |].
  apply (print_reads sample_data_type_str sample_show_float tab (tab +:+ tab)
           scenario_resolved.1 (BatchNormalization.set_mean None scenario_resolved.1)
           scenario_resolved.2 scenario_store scenario_X scenario_X);
    reflexivity.
Defined.

Lemma resolve_then_print_witness :
  (resolve scenario_node scenario_store = Ok scenario_resolved /\
   scenario_store !! 0%nat = Some scenario_X /\
   (2 <= length (Tensor.data_dim scenario_X))%nat) /\
  exists s, print sample_data_type_str sample_show_float tab (tab +:+ tab)
              scenario_resolved.1 scenario_resolved.2 = Ok s.
Proof.
  split; [repeat split; simpl; lia |].
  apply (resolve_then_print sample_data_type_str sample_show_float tab (tab +:+ tab)
           scenario_node scenario_resolved.1 scenario_store scenario_resolved.2
           0%nat scenario_X); [reflexivity.. | simpl; lia].
Defined.

Lemma parse_then_resolve_witness :
  (parseAttributes sample_parse_attribute_int (NodeProto.mk [sample_epsilon_1])
     scenario_node = Ok scenario_parsed /\
   resolve scenario_parsed scenario_store = Ok scenario_parsed_resolved) /\
  BatchNormalization.epsilon scenario_parsed_resolved.1 = float_1_0 /\
  exists tv',
    scenario_parsed_resolved.2 !! 4%nat = Some tv' /\
    Tensor.data_buffer tv' = folded float_1_0 3 (Tensor.data_buffer scenario_var).
Proof.
  split; [split; reflexivity |].
  exact (parse_then_resolve sample_parse_attribute_int (NodeProto.mk [sample_epsilon_1])
           scenario_node scenario_parsed scenario_parsed_resolved.1
           scenario_store scenario_parsed_resolved.2 4%nat scenario_var
           eq_refl eq_refl eq_refl eq_refl eq_refl eq_refl).
Defined.

Lemma resolve_single_precision_variance_witness :
  (resolve scenario_node scenario_store = Ok scenario_resolved /\
   resolve scenario_node scenario_store_runtime = Ok scenario_resolved_runtime) /\
  ((exists tv',
      scenario_resolved.2 !! 4%nat = Some tv' /\
      length (Tensor.data_buffer tv') = 3%nat /\
      forall j : nat, (j < 3)%nat ->
        exists x, Tensor.data_buffer scenario_var !! j = Some x /\
                  Tensor.data_buffer tv' !! j
                  = Some (float_sqrt (float_add x float_1em5))) /\
   BatchNormalization.sqrt_var_offline scenario_resolved.1 = true /\
   print_epsilon sample_show_float tab scenario_resolved.1 = "" /\
   forall type idxs : string,
     print_tmp_X (tab +:+ tab) type idxs scenario_resolved.1
     = (tab +:+ tab) +:+ type +:+ " tmp_X = ( X" +:+ idxs +:+ " - mean[c] ) / "
       +:+ "( var[c] );" +:+ endl) /\
  ((forall (p : ptr) (x : Tensor.t),
      scenario_store_runtime !! p = Some x ->
      scenario_resolved_runtime.2 !! p = Some x) /\
   BatchNormalization.sqrt_var_offline scenario_resolved_runtime.1 = false /\
   (print_epsilon sample_show_float tab scenario_resolved_runtime.1
    = tab +:+ "float epsilon = " +:+ sample_show_float float_1em5 +:+ ";" +:+ endl /\
    forall type idxs : string,
      print_tmp_X (tab +:+ tab) type idxs scenario_resolved_runtime.1
      = (tab +:+ tab) +:+ type +:+ " tmp_X = ( X" +:+ idxs +:+ " - mean[c] ) / "
        +:+ "( sqrt( var[c] + epsilon));" +:+ endl)).
Proof.
  split; [split; reflexivity |]. split.
  - destruct (proj1 (resolve_single_precision_variance
             sample_show_float tab (tab +:+ tab)
             scenario_node scenario_resolved.1 scenario_store scenario_resolved.2
             4%nat scenario_var eq_refl eq_refl eq_refl) eq_refl)
      as (Helems & Hrest).
    split; [exact (Helems eq_refl) | exact Hrest].
  - destruct (proj2 (resolve_single_precision_variance sample_show_float tab (tab +:+ tab)
             scenario_node scenario_resolved_runtime.1
             scenario_store_runtime scenario_resolved_runtime.2
             4%nat scenario_var_runtime eq_refl eq_refl eq_refl) eq_refl)
      as (Hstore & Hflag & Htext).
    split; [exact Hstore |]. split; [exact Hflag |]. exact (Htext eq_refl).
Defined.
